(** * WarehouseSever: the spreadsheet-backed warehouse store

    A shallow embedding of [warehouseback.py].  The request handlers
    [get_customers], [get_goods_data], [get_rowdown_data], [get_data] and
    [submit_data] are translated as functions over an explicit model of the
    workbook file; the properties of the specification are then stated and
    proved about these functions.

    Conventions.
    - Python [str] is [string]; non-ASCII text is carried as its UTF-8
      bytes.  Whitespace and letter case follow Python on the ASCII range;
      digits, spaces and case pairs of other scripts are not modelled.
    - Python [int] is [Z].
    - A handler whose body raises (and so answers with
      [{"status": "error", ...}] and status 500) returns [Err e]; a handler
      that answers normally returns [Ok payload].
    - The workbook library is modelled in [Module Openpyxl] at the level of
      the cell dictionary of each worksheet.  Cell values are stored as
      given: the library's own checks on cell text are outside the model. *)

From Stdlib Require Import ZArith Ascii String DecimalString DecimalPos.
From stdpp Require Import gmap strings list fin_maps.

Local Open Scope Z_scope.

(** ** Results of code that can raise *)

Inductive exn :=
  | MissingPositionName          (* ValueError raised at line 369 *)
  | InvalidLiteral (s : string)  (* ValueError: invalid literal for int() *)
  | NotEnoughValues              (* ValueError: not enough values to unpack *)
  | TooManyValues                (* ValueError: too many values to unpack *)
  | CellIndexBelowOne            (* ValueError of Worksheet.cell *)
  | KeyError (name : string)     (* wb[name] for an absent worksheet *)
  | IndexError                   (* list index out of range *)
  | SheetNotFound (name : string)(* the explicit answer at line 228 *)
  | FileUnreadable               (* load_workbook failed *)
  | IllegalCharacter             (* IllegalCharacterError of a cell text *)
  | InvalidColumnIndex.          (* ValueError of wb.save, column too far *)

Inductive result (A : Type) :=
  | Ok (a : A)
  | Err (e : exn).
Arguments Ok {A} a.
Arguments Err {A} e.

Global Instance result_bind : MBind result := λ A B f r,
  match r with
  | Ok a => f a
  | Err e => Err e
  end.
Global Instance result_ret : MRet result := λ A a, Ok a.

Definition is_ok {A} (r : result A) : bool :=
  match r with Ok _ => true | Err _ => false end.

(** The failures the specification files under [InvalidPosition]: every
    [ValueError] that the position handling of [submit_data] can raise. *)
Definition InvalidPosition (e : exn) : Prop :=
  match e with
  | MissingPositionName | InvalidLiteral _ | NotEnoughValues
  | TooManyValues | CellIndexBelowOne => True
  | _ => False
  end.

(** ** Python strings *)
Module Py.

Definition newline : ascii := "010"%char.

(** [str.isspace] on the ASCII range. *)
Definition is_space (c : ascii) : bool :=
  let n := nat_of_ascii c in
  ((9 <=? n) && (n <=? 13) || (28 <=? n) && (n <=? 32))%nat.

Fixpoint lstrip (s : string) : string :=
  match s with
  | String c s' => if is_space c then lstrip s' else s
  | EmptyString => EmptyString
  end.

Fixpoint rstrip (s : string) : string :=
  match s with
  | String c s' =>
      match rstrip s' with
      | EmptyString => if is_space c then EmptyString else String c EmptyString
      | t => String c t
      end
  | EmptyString => EmptyString
  end.

(** [s.strip()] *)
Definition strip (s : string) : string := rstrip (lstrip s).

Definition lower_char (c : ascii) : ascii :=
  let n := nat_of_ascii c in
  if ((65 <=? n) && (n <=? 90))%nat then ascii_of_nat (n + 32) else c.

(** [s.lower()] *)
Fixpoint lower (s : string) : string :=
  match s with
  | String c s' => String (lower_char c) (lower s')
  | EmptyString => EmptyString
  end.

(** [s.startswith(p)] *)
Definition startswith (s p : string) : bool := String.prefix p s.

(** Truth value of a string: [bool(s)]. *)
Definition nonempty (s : string) : bool :=
  match s with EmptyString => false | String _ _ => true end.

(** [s.split(sep)] for a one-character separator. *)
Fixpoint split (sep : ascii) (s : string) : list string :=
  match s with
  | EmptyString => [EmptyString]
  | String c s' =>
      if Ascii.eqb c sep then EmptyString :: split sep s'
      else match split sep s' with
           | h :: t => String c h :: t
           | [] => [String c EmptyString]
           end
  end.

(** [str(n)] and the [{n}] of an f-string, for an [int]. *)
Definition str_int (n : Z) : string := NilZero.string_of_int (Z.to_int n).

Definition digit (c : ascii) : option Z := Z.of_nat <$> Ascii.is_nat c.

(** The digit part of an [int] literal: decimal digits, with single
    underscores allowed between digits. [prev] tells whether the
    character just read was a digit. *)
Fixpoint int_digits (acc : Z) (prev : bool) (s : string) : option Z :=
  match s with
  | EmptyString => if prev then Some acc else None
  | String c s' =>
      match digit c with
      | Some d => int_digits (10 * acc + d) true s'
      | None =>
          if Ascii.eqb c "_" && prev then int_digits acc false s' else None
      end
  end.

(** The blanks that [int()] skips around a literal: tab, line feed,
    vertical tab, form feed, carriage return and space.  Unlike
    [str.strip], it does not skip the separators [\x1c] to [\x1f]. *)
Definition is_int_space (c : ascii) : bool :=
  let n := nat_of_ascii c in
  ((9 <=? n) && (n <=? 13) || (n =? 32))%nat.

Fixpoint int_lstrip (s : string) : string :=
  match s with
  | String c s' => if is_int_space c then int_lstrip s' else s
  | EmptyString => EmptyString
  end.

Fixpoint int_rstrip (s : string) : string :=
  match s with
  | String c s' =>
      match int_rstrip s' with
      | EmptyString => if is_int_space c then EmptyString else String c EmptyString
      | t => String c t
      end
  | EmptyString => EmptyString
  end.

Definition int_strip (s : string) : string := int_rstrip (int_lstrip s).

(** [int(s)]: surrounding blanks are dropped, one sign is allowed. *)
Definition int (s : string) : result Z :=
  let t := int_strip s in
  let r :=
    match t with
    | String "-" u => Z.opp <$> int_digits 0 false u
    | String "+" u => int_digits 0 false u
    | _ => int_digits 0 false t
    end in
  match r with
  | Some n => Ok n
  | None => Err (InvalidLiteral s)
  end.

(** [enumerate(l)] *)
Definition enumerate {A} (l : list A) : list (nat * A) :=
  zip (seq 0 (length l)) l.

(** Cell values as the workbook library hands them out.  A float or a
    date is carried by its truth value and its [str] image. *)
Inductive value :=
  | VNone
  | VStr (s : string)
  | VInt (n : Z)
  | VBool (b : bool)
  | VFloat (nonzero : bool) (image : string)
  | VDate (image : string).

(** [bool(v)] *)
Definition truthy (v : value) : bool :=
  match v with
  | VNone => false
  | VStr s => nonempty s
  | VInt n => negb (n =? 0)
  | VBool b => b
  | VFloat nz _ => nz
  | VDate _ => true
  end.

(** [str(v)] *)
Definition str (v : value) : string :=
  match v with
  | VNone => "None"
  | VStr s => s
  | VInt n => str_int n
  | VBool true => "True"
  | VBool false => "False"
  | VFloat _ image => image
  | VDate image => image
  end.

(** [isinstance(v, str)] *)
Definition is_str (v : value) : bool :=
  match v with VStr _ => true | _ => false end.

Definition is_none (v : value) : bool :=
  match v with VNone => true | _ => false end.

(** [d.get(k)] of a form or dictionary of strings: [None] when absent. *)
Definition get (d : gmap string string) (k : string) : value :=
  match d !! k with
  | Some s => VStr s
  | None => VNone
  end.

End Py.

(** ** The workbook library, as the handlers use it *)
Module Openpyxl.
Import Py.

(** A worksheet is its cell dictionary [ws._cells], keyed by
    [(row, column)]. *)
Abbreviation worksheet := (gmap (Z * Z) value).

Definition maximum (default : Z) (l : list Z) : Z :=
  match l with
  | [] => default
  | x :: l' => foldr Z.max x l'
  end.

(** [ws.max_row] and [ws.max_column]: the largest row and column that hold
    a cell, and 1 for a sheet without cells. *)
Definition max_row (ws : worksheet) : Z :=
  maximum 1 ((λ kv, kv.1.1) <$> map_to_list ws).

Definition max_column (ws : worksheet) : Z :=
  maximum 1 ((λ kv, kv.1.2) <$> map_to_list ws).

(** [ws.cell(row, col).value]; a cell that does not exist yet reads as
    [None]. *)
Definition cell_value (ws : worksheet) (row col : Z) : value :=
  default VNone (ws !! (row, col)).

(** [ws.cell(row=row, column=col, value=v)] *)
Definition set_cell (ws : worksheet) (row col : Z) (v : value)
    : result worksheet :=
  if (row <? 1) || (col <? 1) then Err CellIndexBelowOne
  else Ok (<[(row, col) := v]> ws).

(** [ws._current_row] of a sheet that was just read from the file: 0 when
    it has no cell, [max_row] otherwise. *)
Definition current_row (ws : worksheet) : Z :=
  match map_to_list ws with
  | [] => 0
  | _ => max_row ws
  end.

(** [ws.append(row)]: the values go to columns 1, 2, ... of the row after
    the current one. *)
Definition append (ws : worksheet) (row : list value) : worksheet :=
  let row_idx := current_row ws + 1 in
  foldl (λ cells '(i, v), <[(row_idx, Z.of_nat i + 1) := v]> cells)
        ws (enumerate row).

(** The cells of one row over the used columns. *)
Definition row_values (ws : worksheet) (row : Z) : list value :=
  (λ col, cell_value ws row col) <$> seqZ 1 (max_column ws).

(** [ws.iter_rows(min_row=m)] read through [cell.value]. *)
Definition iter_rows (ws : worksheet) (min_row : Z) : list (list value) :=
  row_values ws <$> seqZ min_row (max_row ws - min_row + 1).

(** [list(ws.values)]: nothing for a sheet without cells. *)
Definition values (ws : worksheet) : list (list value) :=
  if current_row ws =? 0 then [] else iter_rows ws 1.

(** A workbook maps sheet names to worksheets; [wb[name]] raises
    [KeyError] for an absent name. *)
Abbreviation workbook := (gmap string worksheet).

Definition getitem (wb : workbook) (name : string) : result worksheet :=
  match wb !! name with
  | Some ws => Ok ws
  | None => Err (KeyError name)
  end.

(** The file [EXCEL_FILE]: absent or unreadable, or holding a workbook. *)
Definition file := option workbook.

Definition load_workbook (f : file) : result workbook :=
  match f with
  | Some wb => Ok wb
  | None => Err FileUnreadable
  end.

(** [wb.save(EXCEL_FILE)] replaces the file by the workbook in memory. *)
Definition save (wb : workbook) : file := Some wb.

End Openpyxl.

Import Py Openpyxl.

(** ** Sheet names (lines 34-42) *)

Definition MAP_SHEET_NAME : string := "map".
Definition OPTIONS_SHEET_NAME : string := "rowdown".
Definition DATA_SHEET_NAME : string := "test".
Definition CUSTOMER_SHEET_NAME : string := "sale_sheet_data".
Definition GOODS_SHEET_NAME : string := "goods_sheet".
Definition SALE_ROWDOWN_NAME : string := "rowdown_order".

(** ** [get_customers] (lines 85-168)

    The [header_map] of lines 110-118 only serves to print a warning for
    a missing header; it has no part in the result and is left out. *)

Record customer := Customer {
  c_id : string;
  c_name : string;
  c_phone : string;
  c_address : string
}.

(** Lines 125-128: the dictionary of one row, keyed by header. *)
Definition customer_info_of (headers row_data : list string)
    : gmap string string :=
  foldl (λ info '(i, header),
           <[header := if (i <? length row_data)%nat
                       then default "" (row_data !! i) else ""]> info)
        ∅ (enumerate headers).

(** [customer_info.get(key, '')] *)
Definition get_or_empty (d : gmap string string) (key : string) : string :=
  default "" (d !! key).

(** Lines 130-152: the four prefix tests, in their fixed order. *)
Definition is_match_of (id_query name_query phone_query address_query : string)
    (customer_info : gmap string string) : bool :=
  let is_match := false in
  let id_val := lower (get_or_empty customer_info "客戶編號") in
  let is_match :=
    if nonempty id_query && nonempty id_val && startswith id_val id_query
    then true else is_match in
  let name_val := lower (get_or_empty customer_info "客戶名稱") in
  let is_match :=
    if negb is_match && nonempty name_query && nonempty name_val
       && startswith name_val name_query
    then true else is_match in
  let phone_val := lower (get_or_empty customer_info "客戶電話") in
  let is_match :=
    if negb is_match && nonempty phone_query && nonempty phone_val
       && startswith phone_val phone_query
    then true else is_match in
  let address_val := lower (get_or_empty customer_info "送貨地址") in
  let is_match :=
    if negb is_match && nonempty address_query && nonempty address_val
       && startswith address_val address_query
    then true else is_match in
  is_match.

(** Lines 156-161 *)
Definition formatted_customer (customer_info : gmap string string) : customer :=
  {| c_id := get_or_empty customer_info "客戶編號";
     c_name := get_or_empty customer_info "客戶名稱";
     c_phone := get_or_empty customer_info "客戶電話";
     c_address := get_or_empty customer_info "送貨地址" |}.

(** Line 123 *)
Definition customer_row_data (row : list value) : list string :=
  (λ v, strip (str (if truthy v then v else VStr ""))) <$> row.

(** Lines 121-162: the loop over the data rows. *)
Definition scan_customers (id_query name_query phone_query address_query : string)
    (headers : list string) (rows : list (list value)) : list customer :=
  foldl (λ customers row,
           let row_data := customer_row_data row in
           let customer_info := customer_info_of headers row_data in
           if is_match_of id_query name_query phone_query address_query
                customer_info
           then customers ++ [formatted_customer customer_info]
           else customers)
        [] rows.

(** [request.args.get(key, '').strip().lower()] *)
Definition query_arg (args : gmap string string) (key : string) : string :=
  lower (strip (default "" (args !! key))).

Definition get_customers (args : gmap string string) (f : file)
    : result (list customer) :=
  let id_query := query_arg args "id_query" in
  let name_query := query_arg args "name_query" in
  let phone_query := query_arg args "phone_query" in
  let address_query := query_arg args "address_query" in
  if negb (nonempty id_query || nonempty name_query
           || nonempty phone_query || nonempty address_query)
  then Ok []
  else
    wb ← load_workbook f;
    customer_sheet ← getitem wb CUSTOMER_SHEET_NAME;
    let headers := str <$> row_values customer_sheet 1 in
    Ok (scan_customers id_query name_query phone_query address_query
          headers (iter_rows customer_sheet 2)).

(** ** [get_goods_data] (lines 173-209) *)

Record goods := Goods {
  g_name : string;
  g_spec : string;
  g_stock : string
}.

(** [l[i]] for an index that is not negative. *)
Definition index {A} (l : list A) (i : nat) : result A :=
  match l !! i with
  | Some x => Ok x
  | None => Err IndexError
  end.

(** Line 182: the header cells with a false value are dropped. *)
Definition goods_headers (header_row : list value) : list string :=
  (λ v, strip (str v)) <$> filter (λ v, truthy v) header_row.

(** Lines 188-189: the dictionary comprehension over the cells of a row;
    [headers[i]] raises when the row has more cells than [headers]. *)
Definition row_dict_of (headers : list string) (row : list value)
    : result (gmap string string) :=
  foldl (λ acc '(i, v),
           row_dict ← acc;
           header ← index headers i;
           mret (<[header := if truthy v then strip (str v) else ""]> row_dict))
        (Ok ∅) (enumerate row).

(** Lines 198-202 *)
Definition formatted_item (row_dict : gmap string string) : goods :=
  {| g_name := get_or_empty row_dict "品名";
     g_spec := get_or_empty row_dict "規格";
     g_stock := get_or_empty row_dict "庫存" |}.

(** Lines 185-203: the loop over the data rows. *)
Definition scan_goods (headers : list string) (rows : list (list value))
    : result (list goods) :=
  foldl (λ acc row,
           goods_data ← acc;
           row_dict ← row_dict_of headers row;
           mret (goods_data ++ [formatted_item row_dict]))
        (Ok []) rows.

Definition get_goods_data (f : file) : result (list goods) :=
  wb ← load_workbook f;
  goods_sheet ← getitem wb GOODS_SHEET_NAME;
  let headers := goods_headers (row_values goods_sheet 1) in
  scan_goods headers (iter_rows goods_sheet 2).

(** ** Lookup extraction (lines 248-260 and 294-301) *)

(** The inner loop that both [get_rowdown_data] and [get_data] run for one
    column.  [options_step] is its body for one row, on the pair of
    [options_list] and [seen_options]; [row !! col_index] is [Some v]
    exactly when [len(row) > col_index]. *)
Definition options_step (col_index : nat)
    (state : list string * gset string) (row : list value)
    : list string * gset string :=
  let '(options_list, seen_options) := state in
  match row !! col_index with
  | Some v =>
      if negb (is_none v) then
        let value := strip (str v) in
        if nonempty value && bool_decide (value ∉ seen_options)
        then (options_list ++ [value], {[value]} ∪ seen_options)
        else (options_list, seen_options)
      else (options_list, seen_options)
  | None => (options_list, seen_options)
  end.

(** The values of a column in row order, as stripped text, without the
    empty ones and without repeats. *)
Definition column_options (col_index : nat)
    (options_data_rows : list (list value)) : list string :=
  (foldl (options_step col_index) ([], ∅) options_data_rows).1.

(** ** [get_rowdown_data] (lines 214-274) *)

Definition HEADER_TO_JSON_KEY : gmap string string :=
  list_to_map [("計價單位", "pricingUnits");
               ("銷售方式", "salesMethods");
               ("製單人員", "creatorNames");
               ("送貨員", "deliveryPeople");
               ("車號", "carNumbers")].

(** Lines 233-263 *)
Definition lookup_data_of (options_values : list (list value))
    : gmap string (list string) :=
  match options_values with
  | [] => ∅
  | options_header :: options_data_rows =>
      foldl (λ lookup_data '(col_index, header),
               match header with
               | VStr h =>
                   match HEADER_TO_JSON_KEY !! h with
                   | Some json_key =>
                       <[json_key := column_options col_index options_data_rows]>
                         lookup_data
                   | None => lookup_data
                   end
               | _ => lookup_data
               end)
            ∅ (enumerate options_header)
  end.

Definition get_rowdown_data (f : file) : result (gmap string (list string)) :=
  wb ← load_workbook f;
  match wb !! SALE_ROWDOWN_NAME with
  | None => Err (SheetNotFound SALE_ROWDOWN_NAME)
  | Some options_sheet => Ok (lookup_data_of (values options_sheet))
  end.

(** ** [get_data] (lines 280-335) *)

(** Lines 287-302.  The dictionary [dropdown_options] is keyed by the
    header value itself; it is represented by the sequence of its
    assignments [dropdown_options[header] = options_list], in column
    order, a later assignment to an equal key superseding an earlier
    one. *)
Definition dropdown_options_of (options_values : list (list value))
    : list (value * list string) :=
  match options_values with
  | [] => []
  | options_header :: options_data_rows =>
      foldl (λ dropdown_options '(col_index, header),
               if truthy header
               then dropdown_options
                      ++ [(header, column_options col_index options_data_rows)]
               else dropdown_options)
            [] (enumerate options_header)
  end.

(** Line 309: [f"{col}-{row}"] *)
Definition position_name_of (col row : Z) : string :=
  str_int col +:+ "-" +:+ str_int row.

(** [lines[i] if len(lines) > i else ''] *)
Definition line_or_empty (lines : list string) (i : nat) : string :=
  if (i <? length lines)%nat then default "" (lines !! i) else "".

(** Lines 311-326: the entry of one cell, a JSON object of strings. *)
Definition bin_entry (position_name : string) (cell_value : value)
    : gmap string string :=
  if truthy cell_value && is_str cell_value then
    let lines := split newline (str cell_value) in
    <["positionName" := position_name]>
      (<["binName" := line_or_empty lines 0]>
        (<["item" := line_or_empty lines 1]>
          (<["date" := line_or_empty lines 2]>
            (<["vendor" := line_or_empty lines 3]>
              (<["binValue" := str cell_value]> ∅)))))
  else
    <["positionName" := position_name]>
      (<["binName" := ""]>
        (<["binValue" := ""]> ∅)).

(** Lines 305-326: one entry per cell, rows outermost. *)
Definition bin_map_data_of (map_sheet : worksheet) : list (gmap string string) :=
  row ← seqZ 1 (max_row map_sheet);
  col ← seqZ 1 (max_column map_sheet);
  [bin_entry (position_name_of col row) (cell_value map_sheet row col)].

Record data_response := DataResponse {
  dropdownOptions : list (value * list string);
  binMapData : list (gmap string string)
}.

Definition get_data (f : file) : result data_response :=
  wb ← load_workbook f;
  options_sheet ← getitem wb OPTIONS_SHEET_NAME;
  let dropdown_options := dropdown_options_of (values options_sheet) in
  map_sheet ← getitem wb MAP_SHEET_NAME;
  Ok {| dropdownOptions := dropdown_options;
        binMapData := bin_map_data_of map_sheet |}.

(** ** [submit_data] (lines 340-386) *)

(** Lines 349-361; [timestamp] is the value of [datetime.now()]. *)
Definition new_row_of (form_data : gmap string string) (timestamp : value)
    : list value :=
  [timestamp;
   get form_data "日期";
   get form_data "輸入原物料";
   get form_data "廠商名稱";
   get form_data "乾燥度";
   get form_data "等級";
   get form_data "料桶";
   get form_data "總重";
   get form_data "容量";
   get form_data "初估碾米率";
   get form_data "備註"].

(** Lines 348-362: the row is appended to the ledger sheet of the workbook
    in memory. *)
Definition append_ledger (form_data : gmap string string) (timestamp : value)
    (wb : workbook) : result workbook :=
  data_sheet ← getitem wb DATA_SHEET_NAME;
  mret (<[DATA_SHEET_NAME := append data_sheet (new_row_of form_data timestamp)]> wb).

(** Line 371: [col_index, row_index = map(int, bin_position.split('-'))].
    The unpacking draws the converted parts one by one, and a third one
    only to find out that there are too many. *)
Definition unpack_position (bin_position : string) : result (Z * Z) :=
  match split "-" bin_position with
  | [] => Err NotEnoughValues
  | [p0] => _ ← int p0; Err NotEnoughValues
  | [p0; p1] => col_index ← int p0; row_index ← int p1; mret (col_index, row_index)
  | p0 :: p1 :: p2 :: _ => _ ← int p0; _ ← int p1; _ ← int p2; Err TooManyValues
  end.

(** Lines 365-371 *)
Definition position_of (form_data : gmap string string) : result (Z * Z) :=
  let bin_position := get form_data "positionName" in
  if negb (truthy bin_position) then Err MissingPositionName
  else unpack_position (str bin_position).

(** The four-line cell text of lines 373-378, on the four values. *)
Definition encode_cell (bin_display_name item date vendor : value) : string :=
  str bin_display_name +:+ String newline
    (str item +:+ String newline
      (str date +:+ String newline (str vendor))).

Definition new_cell_value_of (form_data : gmap string string) : string :=
  encode_cell (get form_data "料桶") (get form_data "輸入原物料")
    (get form_data "日期") (get form_data "廠商名稱").

(** Lines 348-379: everything between loading and saving. *)
Definition update_workbook (form_data : gmap string string) (timestamp : value)
    (wb : workbook) : result workbook :=
  wb ← append_ledger form_data timestamp wb;
  map_sheet ← getitem wb MAP_SHEET_NAME;
  '(col_index, row_index) ← position_of form_data;
  let new_cell_value := new_cell_value_of form_data in
  map_sheet ← set_cell map_sheet row_index col_index (VStr new_cell_value);
  mret (<[MAP_SHEET_NAME := map_sheet]> wb).

(** The handler: the answer and the file it leaves behind. *)
Definition submit_data (form_data : gmap string string) (timestamp : value)
    (f : file) : result () * file :=
  match load_workbook f ≫= update_workbook form_data timestamp with
  | Ok wb => (Ok (), save wb)
  | Err e => (Err e, f)
  end.

(** *** The handler step by step

    The same handler as a machine that performs one stage at a time, to
    speak about an interruption between two stages.  A state is the stage
    reached, with the workbook in memory, and the file. *)

Inductive stage :=
  | Start
  | Loaded (wb : workbook)
  | Appended (wb : workbook)
  | Located (wb : workbook) (map_sheet : worksheet) (col_index row_index : Z)
  | Encoded (wb : workbook) (map_sheet : worksheet) (col_index row_index : Z)
            (new_cell_value : string)
  | Written (wb : workbook)
  | Saved
  | Failed (e : exn).

Definition enter {A} (r : result A) (k : A → stage) : stage :=
  match r with
  | Ok a => k a
  | Err e => Failed e
  end.

Definition step (form_data : gmap string string) (timestamp : value)
    (s : stage * file) : stage * file :=
  let '(st, f) := s in
  match st with
  | Start => (enter (load_workbook f) Loaded, f)
  | Loaded wb => (enter (append_ledger form_data timestamp wb) Appended, f)
  | Appended wb =>
      (enter (map_sheet ← getitem wb MAP_SHEET_NAME;
              '(col_index, row_index) ← position_of form_data;
              mret (map_sheet, col_index, row_index))
             (λ '(map_sheet, col_index, row_index),
                Located wb map_sheet col_index row_index), f)
  | Located wb map_sheet col_index row_index =>
      (Encoded wb map_sheet col_index row_index (new_cell_value_of form_data), f)
  | Encoded wb map_sheet col_index row_index new_cell_value =>
      (enter (set_cell map_sheet row_index col_index (VStr new_cell_value))
             (λ map_sheet, Written (<[MAP_SHEET_NAME := map_sheet]> wb)), f)
  | Written wb => (Saved, save wb)
  | Saved => (Saved, f)
  | Failed e => (Failed e, f)
  end.

(** The state after [n] stages, from the file [f]. *)
Definition run (form_data : gmap string string) (timestamp : value)
    (n : nat) (f : file) : stage * file :=
  Nat.iter n (step form_data timestamp) (Start, f).

(** ** The write path with the library's checks

    [submit_data] above takes the workbook library at its simplest: what
    is put into a cell is what a later request reads.  The library does
    more, and [Module Checked] is the same handler with it:
    - a text put into a cell is cut after 32767 characters, and refused
      with [IllegalCharacterError] when it holds one of the control
      characters [\x00]-[\x08], [\x0b], [\x0c], [\x0e]-[\x1f];
    - [wb.save] fails for a cell in a column beyond 18278, after it has
      begun to rewrite the file, which is then unreadable;
    - read back from the file, a carriage return in a text is a line
      feed, an empty text is no value, and a cell without value may be
      gone; the images of floats and dates are not followed. *)
Module Checked.

(** A byte that begins a character of the UTF-8 text. *)
Definition starts_char (c : ascii) : bool :=
  let n := nat_of_ascii c in
  negb ((128 <=? n) && (n <? 192))%nat.

(** [len(s)], in characters. *)
Fixpoint char_count (s : string) : N :=
  match s with
  | EmptyString => 0
  | String c s' => ((if starts_char c then 1 else 0) + char_count s')%N
  end.

(** [s[:n]], in characters. *)
Fixpoint take_chars (n : N) (s : string) : string :=
  match s with
  | EmptyString => EmptyString
  | String c s' =>
      if starts_char c then
        if (n =? 0)%N then EmptyString
        else String c (take_chars (N.pred n) s')
      else String c (take_chars n s')
  end.

(** The characters of [ILLEGAL_CHARACTERS_RE]. *)
Definition illegal_character (c : ascii) : bool :=
  let n := nat_of_ascii c in
  ((n <=? 8) || (n =? 11) || (n =? 12) || (14 <=? n) && (n <=? 31))%nat.

(** [c in s] for some character [c] that satisfies [p]. *)
Fixpoint has_character (p : ascii → bool) (s : string) : bool :=
  match s with
  | EmptyString => false
  | String c s' => p c || has_character p s'
  end.

(** [Cell.check_string]: the text is cut first, then checked. *)
Definition check_string (s : string) : result string :=
  let s := take_chars 32767 s in
  if has_character illegal_character s then Err IllegalCharacter else Ok s.

(** Giving a cell its value. *)
Definition bind_value (v : value) : result value :=
  match v with
  | VStr s => s ← check_string s; mret (VStr s)
  | _ => Ok v
  end.

(** [ws.cell(row=row, column=col, value=v)] *)
Definition set_cell (ws : worksheet) (row col : Z) (v : value)
    : result worksheet :=
  if (row <? 1) || (col <? 1) then Err CellIndexBelowOne
  else v ← bind_value v; mret (<[(row, col) := v]> ws).

(** [ws.append(row)] *)
Definition append (ws : worksheet) (row : list value) : result worksheet :=
  row ← mapM bind_value row; mret (Openpyxl.append ws row).

(** The last column that [wb.save] can write. *)
Definition last_column : Z := 18278.

Definition columns_ok (wb : workbook) : bool :=
  bool_decide (map_Forall (λ (_ : string) (ws : worksheet),
                 map_Forall (λ (k : Z * Z) (_ : value), k.2 ≤ last_column) ws)
               wb).

(** A text as the file gives it back: ["\r\n"] and ["\r"] are ["\n"]. *)
Fixpoint read_text (s : string) : string :=
  match s with
  | EmptyString => EmptyString
  | String c s' =>
      if Ascii.eqb c "013" then
        String newline
          match s' with
          | String c' s'' => if Ascii.eqb c' newline then read_text s''
                             else read_text s'
          | EmptyString => EmptyString
          end
      else String c (read_text s')
  end.

(** Whether a cell value is something the file keeps for sure. *)
Definition has_content (v : value) : bool :=
  match v with
  | VNone | VStr EmptyString => false
  | _ => true
  end.

(** [v'] is a value that the file can give back for the value [v]. *)
Definition reads_back (v v' : value) : Prop :=
  match v with
  | VNone => v' = VNone
  | VStr EmptyString => v' = VNone
  | VStr s => v' = VStr (read_text s)
  | VInt n => v' = VInt n
  | VBool b => v' = VBool b
  | VFloat _ _ => ∃ nonzero image, v' = VFloat nonzero image
  | VDate _ => ∃ image, v' = VDate image
  end.

(** [ws'] is a sheet that can be read from the file written for [ws]. *)
Definition sheet_reads_back (ws ws' : worksheet) : Prop :=
  ∀ k,
    match ws !! k with
    | Some v =>
        if has_content v then ∃ v', ws' !! k = Some v' ∧ reads_back v v'
        else ws' !! k = None ∨ ws' !! k = Some VNone
    | None => ws' !! k = None
    end.

(** [f'] is a file that [wb.save] can leave when it succeeds. *)
Definition written (wb : workbook) (f' : file) : Prop :=
  ∃ wb' : workbook,
    f' = Some wb'
    ∧ ∀ name, option_Forall2 sheet_reads_back (wb !! name) (wb' !! name).

(** [wb.save(EXCEL_FILE)]: the answer and the file it leaves. *)
Definition save (wb : workbook) (answer : result ()) (f' : file) : Prop :=
  if columns_ok wb then answer = Ok () ∧ written wb f'
  else answer = Err InvalidColumnIndex ∧ f' = None.

(** Lines 348-379 *)
Definition update_workbook (form_data : gmap string string) (timestamp : value)
    (wb : workbook) : result workbook :=
  data_sheet ← getitem wb DATA_SHEET_NAME;
  data_sheet ← append data_sheet (new_row_of form_data timestamp);
  let wb := <[DATA_SHEET_NAME := data_sheet]> wb in
  map_sheet ← getitem wb MAP_SHEET_NAME;
  '(col_index, row_index) ← position_of form_data;
  let new_cell_value := new_cell_value_of form_data in
  map_sheet ← set_cell map_sheet row_index col_index (VStr new_cell_value);
  mret (<[MAP_SHEET_NAME := map_sheet]> wb).

(** Lines 344-381, up to the save: the workbook to be saved. *)
Definition outcome (form_data : gmap string string) (timestamp : value)
    (f : file) : result workbook :=
  load_workbook f ≫= update_workbook form_data timestamp.

(** The handler: [answer] and [f'] are an answer and a file that it can
    leave, from the file [f]. *)
Definition submit_data (form_data : gmap string string) (timestamp : value)
    (f : file) (answer : result ()) (f' : file) : Prop :=
  match outcome form_data timestamp f with
  | Ok wb => save wb answer f'
  | Err e => answer = Err e ∧ f' = f
  end.

(** One file that [wb.save] can leave: the cells with content, read
    back. *)
Definition read_value (v : value) : option value :=
  match v with
  | VNone | VStr EmptyString => None
  | VStr s => Some (VStr (read_text s))
  | _ => Some v
  end.

Definition read_workbook (wb : workbook) : workbook :=
  (λ ws : worksheet, omap read_value ws) <$> wb.

End Checked.

(** ** Creating the file (lines 44-58) *)






(** ** Reading the ledger *)

(** The number of rows of a sheet that was read from the file. *)
Definition row_count (ws : worksheet) : Z := current_row ws.

Definition ledger (f : file) : option worksheet :=
  wb ← f; wb !! DATA_SHEET_NAME.

(** ** Vocabulary of the statements *)

(** [c in s] *)
Fixpoint contains (c : ascii) (s : string) : bool :=
  match s with
  | EmptyString => false
  | String c' s' => Ascii.eqb c' c || contains c s'
  end.

(** A string that is empty or made of whitespace only. *)
Fixpoint whitespace_only (s : string) : bool :=
  match s with
  | EmptyString => true
  | String c s' => is_space c && whitespace_only s'
  end.

(** A string made of decimal digits only. *)
Fixpoint all_digits (s : string) : bool :=
  match s with
  | EmptyString => true
  | String c s' => bool_decide (is_Some (Ascii.is_nat c)) && all_digits s'
  end.

(** A non-empty query that is a prefix of the lower-cased field. *)
Definition prefix_match (query field : string) : bool :=
  nonempty query && startswith (lower field) query.

(** The row dictionaries that [scan_customers] goes through. *)
Definition customer_infos (headers : list string) (rows : list (list value))
    : list (gmap string string) :=
  (λ row, customer_info_of headers (customer_row_data row)) <$> rows.

(** The texts that a column offers, in row order: the stripped text of
    every cell of the column that is present and not [None]. *)
Definition column_texts (col_index : nat) (rows : list (list value))
    : list string :=
  omap (λ row : list value,
          v ← row !! col_index;
          if is_none v then None else Some (strip (str v))) rows.

(** [after] is [before] with [row] as one more row at the end: the row
    count grows by one, every cell of [before] lies in its rows and is
    kept, nothing changes outside the new row, and the new row holds the
    values of [row] from column 1 on. *)
Definition appends_row (before after : worksheet) (row : list value) : Prop :=
  row_count after = row_count before + 1
  ∧ (∀ r c v, before !! (r, c) = Some v →
       r ≤ row_count before ∧ after !! (r, c) = Some v)
  ∧ (∀ r c, r ≠ row_count before + 1 → after !! (r, c) = before !! (r, c))
  ∧ (∀ i : nat, after !! (row_count before + 1, Z.of_nat i + 1) = row !! i).

(** ["\n".join(lines)] *)
Fixpoint join_lines (lines : list string) : string :=
  match lines with
  | [] => ""
  | [l] => l
  | l :: lines' => l +:+ String newline (join_lines lines')
  end.


(** The keys that [get_rowdown_data] can answer with. *)
Definition lookup_keys : list string :=
  ["pricingUnits"; "salesMethods"; "creatorNames"; "deliveryPeople";
   "carNumbers"].

(** The cells that [get_data] visits, as [(row, column)], in its order. *)
Definition grid_cells (ws : worksheet) : list (Z * Z) :=
  row ← seqZ 1 (max_row ws);
  col ← seqZ 1 (max_column ws);
  [(row, col)].

(** The column that a header label stands for: the last column of the
    header row with that label (in the dictionary of a row a later column
    takes the place of an earlier one with the same label). *)
Fixpoint last_index (key : string) (headers : list string) : option nat :=
  match headers with
  | [] => None
  | h :: headers' =>
      match last_index key headers' with
      | Some i => Some (S i)
      | None => if decide (h = key) then Some 0%nat else None
      end
  end.

(** A cell as a trimmed text; a cell without a value (or with a false
    one) is the empty text. *)
Definition cell_text (v : value) : string :=
  if truthy v then strip (str v) else "".

(** The field of a row under a header label: the trimmed text of the
    cell in the column of the label, and the empty text when no column
    has the label or the row has no such cell. *)
Definition field_of (headers : list string) (row : list value) (key : string)
    : string :=
  match last_index key headers with
  | Some i =>
      match row !! i with
      | Some v => cell_text v
      | None => ""
      end
  | None => ""
  end.

(** ** Sample data *)

Definition sample_customer_sheet : worksheet :=
  list_to_map
    [((1, 1), VStr "客戶編號"); ((1, 2), VStr "客戶名稱");
     ((1, 3), VStr "客戶電話"); ((1, 4), VStr "送貨地址");
     ((2, 1), VStr "C100"); ((2, 2), VStr "Acme Corp");
     ((2, 3), VInt 555); ((2, 4), VStr "1 Main St");
     ((3, 1), VStr "D200"); ((3, 2), VStr " Bolt Ltd ");
     ((3, 3), VStr "777"); ((3, 4), VStr "9 Side Rd")].

Definition sample_goods_sheet : worksheet :=
  list_to_map
    [((1, 1), VStr "品名"); ((1, 2), VStr "規格"); ((1, 3), VStr "庫存");
     ((2, 1), VStr "rice"); ((2, 2), VStr "1kg"); ((2, 3), VInt 5)].

Definition sample_options_sheet : worksheet :=
  list_to_map
    [((1, 1), VStr "grade"); ((1, 2), VNone);
     ((2, 1), VStr "b"); ((3, 1), VStr "a"); ((4, 1), VStr "b");
     ((5, 1), VStr ""); ((6, 1), VStr "a"); ((7, 1), VStr "c")].

Definition sample_rowdown_sheet : worksheet :=
  list_to_map
    [((1, 1), VStr "車號"); ((1, 2), VStr "memo");
     ((2, 1), VStr "b"); ((3, 1), VStr "a"); ((4, 1), VStr "b");
     ((5, 1), VStr ""); ((6, 1), VStr "a"); ((7, 1), VStr "c");
     ((2, 2), VStr "x")].

Definition sample_map_sheet : worksheet :=
  list_to_map [((1, 1), VStr "B0"); ((2, 2), VInt 7)].

Definition sample_data_sheet : worksheet :=
  list_to_map [((1, 1), VDate "2024-01-01 08:00:00"); ((1, 2), VStr "2024-01-01")].

Definition sample_workbook : workbook :=
  list_to_map
    [(MAP_SHEET_NAME, sample_map_sheet);
     (OPTIONS_SHEET_NAME, sample_options_sheet);
     (DATA_SHEET_NAME, sample_data_sheet);
     (CUSTOMER_SHEET_NAME, sample_customer_sheet);
     (GOODS_SHEET_NAME, sample_goods_sheet);
     (SALE_ROWDOWN_NAME, sample_rowdown_sheet)].

Definition sample_form (position_name : string) : gmap string string :=
  list_to_map
    [("positionName", position_name); ("料桶", "B1");
     ("輸入原物料", "rice"); ("日期", "2024-01-02"); ("廠商名稱", "V");
     ("乾燥度", "13"); ("等級", "A"); ("總重", "100"); ("容量", "200");
     ("初估碾米率", "70"); ("備註", "")].

(** A goods sheet whose header row has a gap in column 2. *)
Definition sample_gap_goods_sheet : worksheet :=
  list_to_map
    [((1, 1), VStr "品名"); ((1, 3), VStr "庫存");
     ((2, 1), VStr "rice"); ((2, 3), VInt 5)].

Definition sample_gap_workbook : workbook :=
  <[GOODS_SHEET_NAME := sample_gap_goods_sheet]> sample_workbook.

(** A customer sheet with the name column only. *)
Definition sample_nameless_sheet : worksheet :=
  list_to_map [((1, 1), VStr "客戶名稱"); ((2, 1), VStr "Acme Corp")].

(** A character that is not a control character, or a tab. *)
Definition plain_character (c : ascii) : bool :=
  let n := nat_of_ascii c in
  ((32 <=? n) || (n =? 9))%nat.

(** A text without control characters other than tabs: no line feed, no
    carriage return, and nothing that the library refuses. *)
Fixpoint plain (s : string) : bool :=
  match s with
  | EmptyString => true
  | String c s' => plain_character c && plain s'
  end.

(** A value that the library takes as the value of a cell. *)
Definition accepted (v : value) : bool := is_ok (Checked.bind_value v).

(** A text of 32768 letters. *)
Definition long_text : string := Pos.iter (String "a") "" 32768.

Definition long_form : gmap string string :=
  list_to_map
    [("positionName", "3-5"); ("料桶", "B1");
     ("輸入原物料", "rice"); ("日期", "2024-01-02"); ("廠商名稱", long_text)].

(** Whether some entry has the given name and vendor. *)
Definition has_vendor (entries : list (gmap string string))
    (position_name vendor : string) : bool :=
  bool_decide (Exists (λ entry : gmap string string,
                         entry !! "positionName" = Some position_name
                         ∧ entry !! "vendor" = Some vendor) entries).

(** * Properties *)

(** ** Strings *)

Lemma append_cons c s t : String c s +:+ t = String c (s +:+ t).
Proof. reflexivity. Qed.

Lemma append_nil t : "" +:+ t = t.
Proof. reflexivity. Qed.

Lemma enumerate_snoc {A} (l : list A) (x : A) :
  enumerate (l ++ [x]) = enumerate l ++ [(length l, x)].
Proof.
  unfold enumerate. rewrite length_app. simpl.
  rewrite seq_app. simpl.
  rewrite zip_with_app by (by rewrite length_seq). done.
Qed.

Lemma split_not_nil sep s : split sep s ≠ [].
Proof.
  destruct s as [|c s]; simpl; [done|].
  destruct (Ascii.eqb c sep); [done|].
  by destruct (split sep s).
Qed.

Lemma split_append sep a rest :
  contains sep a = false →
  split sep (a +:+ String sep rest) = a :: split sep rest.
Proof.
  induction a as [|c a IH]; intros Ha.
  - rewrite append_nil. simpl. by rewrite Ascii.eqb_refl.
  - simpl in Ha. apply orb_false_elim in Ha as [Hc Ha].
    rewrite append_cons. simpl. rewrite Hc, (IH Ha). done.
Qed.

Lemma split_single sep a : contains sep a = false → split sep a = [a].
Proof.
  induction a as [|c a IH]; intros Ha; [done|].
  simpl in Ha. apply orb_false_elim in Ha as [Hc Ha].
  simpl. by rewrite Hc, (IH Ha).
Qed.

Lemma split_encode_cell a b c d :
  contains newline a = false → contains newline b = false →
  contains newline c = false → contains newline d = false →
  split newline (encode_cell (VStr a) (VStr b) (VStr c) (VStr d)) = [a; b; c; d].
Proof.
  intros Ha Hb Hc Hd. unfold encode_cell. simpl str.
  rewrite (split_append _ a), (split_append _ b), (split_append _ c) by done.
  by rewrite (split_single _ d).
Qed.

Lemma encode_cell_nonempty a b c d : nonempty (encode_cell a b c d) = true.
Proof. unfold encode_cell. by destruct (str a). Qed.

Lemma bin_entry_encode_cell (position_name a b c d : string) :
  contains newline a = false → contains newline b = false →
  contains newline c = false → contains newline d = false →
  bin_entry position_name (VStr (encode_cell (VStr a) (VStr b) (VStr c) (VStr d)))
  = <["positionName" := position_name]>
      (<["binName" := a]>
        (<["item" := b]>
          (<["date" := c]>
            (<["vendor" := d]>
              (<["binValue" := encode_cell (VStr a) (VStr b) (VStr c) (VStr d)]>
                 ∅))))).
Proof.
  intros Ha Hb Hc Hd. unfold bin_entry.
  simpl truthy. simpl is_str. simpl str.
  rewrite encode_cell_nonempty. simpl andb. cbv iota.
  by rewrite split_encode_cell.
Qed.

(** C1 (record codec round trip).  For texts [a], [b], [c], [d] without a
    line break, the cell text that [submit_data] builds from them, in the
    order bin name, item, date, vendor, is read back by [get_data] as the
    entry whose [binName], [item], [date] and [vendor] are [a], [b], [c]
    and [d]. *)
Theorem codec_round_trip (position_name a b c d : string) :
  contains newline a = false → contains newline b = false →
  contains newline c = false → contains newline d = false →
  bin_entry position_name (VStr (encode_cell (VStr a) (VStr b) (VStr c) (VStr d)))
  = <["positionName" := position_name]>
      (<["binName" := a]>
        (<["item" := b]>
          (<["date" := c]>
            (<["vendor" := d]>
              (<["binValue" := encode_cell (VStr a) (VStr b) (VStr c) (VStr d)]>
                 ∅))))).
Proof. apply bin_entry_encode_cell. Qed.

Lemma codec_round_trip_witness :
  bin_entry "3-5"
    (VStr (encode_cell (VStr "B1") (VStr "rice") (VStr "2024-01-01") (VStr "V")))
  = <["positionName" := "3-5"]>
      (<["binName" := "B1"]>
        (<["item" := "rice"]>
          (<["date" := "2024-01-01"]>
            (<["vendor" := "V"]>
              (<["binValue" :=
                   encode_cell (VStr "B1") (VStr "rice") (VStr "2024-01-01") (VStr "V")]>
                 ∅))))).
Proof. apply codec_round_trip; reflexivity. Defined.

(** ** Customer search *)

Lemma lstrip_whitespace_only s : whitespace_only s = true → lstrip s = "".
Proof.
  induction s as [|c s IH]; simpl; [done|].
  intros [Hc Hs]%andb_prop. rewrite Hc. auto.
Qed.

Lemma strip_whitespace_only s : whitespace_only s = true → strip s = "".
Proof. intros Hs. unfold strip. by rewrite lstrip_whitespace_only. Qed.

Lemma query_arg_blank args key :
  whitespace_only (default "" (args !! key)) = true → query_arg args key = "".
Proof. intros Hs. unfold query_arg. by rewrite strip_whitespace_only. Qed.

(** C6 (fail closed).  When each of the four query strings is absent,
    empty or made of whitespace only, [get_customers] answers with the
    empty list, whatever the file holds. *)
Theorem get_customers_fail_closed (args : gmap string string) (f : file) :
  whitespace_only (default "" (args !! "id_query")) = true →
  whitespace_only (default "" (args !! "name_query")) = true →
  whitespace_only (default "" (args !! "phone_query")) = true →
  whitespace_only (default "" (args !! "address_query")) = true →
  get_customers args f = Ok [].
Proof.
  intros H1 H2 H3 H4. unfold get_customers.
  by rewrite !query_arg_blank.
Qed.

Lemma startswith_empty_field q : nonempty q = true → startswith "" q = false.
Proof. by destruct q. Qed.

Lemma prefix_test_redundant q v :
  nonempty q && nonempty v && startswith v q = nonempty q && startswith v q.
Proof.
  destruct q as [|c q]; [done|].
  by destruct v as [|c' v].
Qed.

Lemma match_step m q v :
  (if negb m && nonempty q && nonempty v && startswith v q then true else m)
  = m || nonempty q && startswith v q.
Proof.
  destruct m; [done|]. simpl negb. rewrite andb_true_l, orb_false_l.
  rewrite prefix_test_redundant. by destruct (nonempty q && startswith v q).
Qed.

Lemma is_match_of_or q1 q2 q3 q4 info :
  is_match_of q1 q2 q3 q4 info
  = prefix_match q1 (get_or_empty info "客戶編號")
    || prefix_match q2 (get_or_empty info "客戶名稱")
    || prefix_match q3 (get_or_empty info "客戶電話")
    || prefix_match q4 (get_or_empty info "送貨地址").
Proof.
  unfold is_match_of, prefix_match. cbv zeta.
  rewrite !match_step, prefix_test_redundant.
  by destruct (nonempty q1 && _).
Qed.

Lemma scan_customers_acc q1 q2 q3 q4 headers rows acc :
  foldl (λ customers row,
           let row_data := customer_row_data row in
           let customer_info := customer_info_of headers row_data in
           if is_match_of q1 q2 q3 q4 customer_info
           then customers ++ [formatted_customer customer_info]
           else customers)
        acc rows
  = acc ++ (formatted_customer
              <$> filter (λ info, is_match_of q1 q2 q3 q4 info)
                         (customer_infos headers rows)).
Proof.
  revert acc. induction rows as [|row rows IH]; intros acc; simpl.
  - by rewrite app_nil_r.
  - rewrite IH, filter_cons.
    destruct (is_match_of _ _ _ _ _) eqn:Hm.
    + rewrite decide_True by done. by rewrite <- app_assoc.
    + by rewrite decide_False by (intros []).
Qed.

Lemma scan_customers_filter q1 q2 q3 q4 headers rows :
  scan_customers q1 q2 q3 q4 headers rows
  = formatted_customer
      <$> filter (λ info, is_match_of q1 q2 q3 q4 info)
                 (customer_infos headers rows).
Proof. unfold scan_customers. by rewrite scan_customers_acc. Qed.

Lemma filter_none {A} (P : A → Prop) `{!∀ x, Decision (P x)} (l : list A) :
  (∀ x, ¬ P x) → filter P l = [].
Proof.
  intros HP. induction l as [|x l IH]; [done|].
  by rewrite filter_cons, decide_False.
Qed.

(** The answer of [get_customers] on a readable file with the sheet. *)
Lemma get_customers_sheet (args : gmap string string) (wb : workbook)
    (customer_sheet : worksheet) :
  wb !! CUSTOMER_SHEET_NAME = Some customer_sheet →
  get_customers args (Some wb)
  = Ok (formatted_customer
          <$> filter (λ info,
                        prefix_match (query_arg args "id_query")
                                     (get_or_empty info "客戶編號")
                        || prefix_match (query_arg args "name_query")
                                        (get_or_empty info "客戶名稱")
                        || prefix_match (query_arg args "phone_query")
                                        (get_or_empty info "客戶電話")
                        || prefix_match (query_arg args "address_query")
                                        (get_or_empty info "送貨地址"))
                     (customer_infos (str <$> row_values customer_sheet 1)
                                     (iter_rows customer_sheet 2))).
Proof.
  intros Hsheet. unfold get_customers.
  destruct (negb _) eqn:Hq.
  - apply negb_true_iff in Hq.
    repeat (apply orb_false_elim in Hq as [Hq ?]).
    rewrite filter_none; [done|]. intros info.
    unfold prefix_match.
    repeat match goal with H : nonempty _ = false |- _ => rewrite H; clear H end.
    simpl. tauto.
  - simpl. unfold getitem. rewrite Hsheet. simpl.
    rewrite scan_customers_filter. do 2 f_equal.
    apply list_filter_iff. intros info. by rewrite is_match_of_or.
Qed.

Lemma last_index_snoc (key h : string) (headers : list string) :
  last_index key (headers ++ [h])
  = if decide (h = key) then Some (length headers) else last_index key headers.
Proof.
  induction headers as [|h' headers IH]; simpl.
  - by destruct (decide (h = key)).
  - rewrite IH. destruct (decide (h = key)); [done|].
    by destruct (last_index key headers).
Qed.

(** The dictionary of a row holds, under a label, the text of the last
    column with that label. *)
Lemma customer_info_of_lookup (headers row_data : list string) (key : string) :
  customer_info_of headers row_data !! key
  = (λ i, default "" (row_data !! i)) <$> last_index key headers.
Proof.
  unfold customer_info_of.
  induction headers as [|h headers IH] using rev_ind; [done|].
  rewrite enumerate_snoc, foldl_snoc, last_index_snoc. simpl.
  destruct (decide (h = key)) as [->|Hne].
  - rewrite lookup_insert_eq. simpl. f_equal.
    destruct (length headers <? length row_data)%nat eqn:Hlt; [done|].
    apply Nat.ltb_ge in Hlt. by rewrite lookup_ge_None_2.
  - by rewrite lookup_insert_ne.
Qed.

Lemma customer_row_data_lookup (row : list value) (i : nat) :
  customer_row_data row !! i = cell_text <$> row !! i.
Proof.
  unfold customer_row_data. rewrite list_lookup_fmap.
  destruct (row !! i) as [v|]; [|done]. simpl. f_equal.
  unfold cell_text. by destruct (truthy v).
Qed.

Lemma get_or_empty_field (headers : list string) (row : list value)
    (key : string) :
  get_or_empty (customer_info_of headers (customer_row_data row)) key
  = field_of headers row key.
Proof.
  unfold get_or_empty, field_of. rewrite customer_info_of_lookup.
  destruct (last_index key headers) as [i|]; [|done]. simpl.
  rewrite customer_row_data_lookup. by destruct (row !! i).
Qed.

Lemma filter_fmap_comm {A B} (f : A → B) (P : B → Prop)
    `{!∀ y, Decision (P y)} (l : list A) :
  filter P (f <$> l) = f <$> filter (λ x, P (f x)) l.
Proof.
  induction l as [|x l IH]; [done|].
  rewrite fmap_cons, !filter_cons, IH. by destruct (decide (P (f x))).
Qed.

(** C7 (prefix match).  On a readable file with a customer sheet,
    [get_customers] returns, in row order, exactly the data rows for
    which at least one query that is not empty is a prefix of the
    corresponding field.  The query is the argument, trimmed and put in
    lower case; the field is the cell under the header of that name,
    turned into text and trimmed, and it is put in lower case for the
    comparison only: the customer returned carries the trimmed fields in
    their own case.  The four ordered tests amount to their disjunction.
    The comparison is a prefix test and ignores case: ["acme"] is found
    in ["Acme Corp"], ["cme"] is not. *)
Theorem get_customers_prefix_match (args : gmap string string)
    (wb : workbook) (customer_sheet : worksheet) :
  wb !! CUSTOMER_SHEET_NAME = Some customer_sheet →
  let headers := str <$> row_values customer_sheet 1 in
  let query key := lower (strip (default "" (args !! key))) in
  let field row key := field_of headers row key in
  let wanted row :=
    nonempty (query "id_query")
      && startswith (lower (field row "客戶編號")) (query "id_query")
    || nonempty (query "name_query")
         && startswith (lower (field row "客戶名稱")) (query "name_query")
    || nonempty (query "phone_query")
         && startswith (lower (field row "客戶電話")) (query "phone_query")
    || nonempty (query "address_query")
         && startswith (lower (field row "送貨地址")) (query "address_query") in
  get_customers args (Some wb)
  = Ok ((λ row, Customer (field row "客戶編號") (field row "客戶名稱")
                  (field row "客戶電話") (field row "送貨地址"))
          <$> filter (λ row, wanted row) (iter_rows customer_sheet 2))
  ∧ startswith (lower "Acme Corp") "acme" = true
  ∧ startswith (lower "Acme Corp") "cme" = false.
Proof.
  intros Hsheet headers query field wanted.
  split; [|done].
  rewrite (get_customers_sheet _ _ _ Hsheet). f_equal.
  unfold customer_infos. rewrite filter_fmap_comm, <- list_fmap_compose.
  fold headers.
  assert (∀ row key,
            get_or_empty (customer_info_of headers (customer_row_data row)) key
            = field row key) as Hfield.
  { intros row key. apply get_or_empty_field. }
  rewrite (list_filter_iff _ (λ row, wanted row)).
  - apply list_fmap_ext. intros i row _. simpl.
    unfold formatted_customer. by rewrite !Hfield.
  - intros row. unfold wanted, prefix_match, query_arg. simpl.
    by rewrite !Hfield.
Qed.

Lemma get_customers_fail_closed_witness :
  get_customers {["id_query" := "   "; "name_query" := ""]} (Some sample_workbook)
  = Ok [].
Proof. apply get_customers_fail_closed; reflexivity. Defined.

Lemma get_customers_prefix_match_witness :
  sample_workbook !! CUSTOMER_SHEET_NAME = Some sample_customer_sheet
  ∧ get_customers {["name_query" := " BOLT"]} (Some sample_workbook)
    = Ok [Customer "D200" "Bolt Ltd" "777" "9 Side Rd"].
Proof.
  split; [reflexivity|].
  rewrite (proj1 (get_customers_prefix_match {["name_query" := " BOLT"]}
                    sample_workbook sample_customer_sheet eq_refl)).
  vm_compute. reflexivity.
Defined.

(** The two searches of the specification, run on the sample sheet: a
    prefix is found, an inner substring is not. *)
Example search_acme :
  get_customers {["name_query" := "ACME"]} (Some sample_workbook)
  = Ok [Customer "C100" "Acme Corp" "555" "1 Main St"].
Proof. vm_compute. reflexivity. Qed.

Example search_cme :
  get_customers {["name_query" := "cme"]} (Some sample_workbook) = Ok [].
Proof. vm_compute. reflexivity. Qed.

(** ** Integers and their decimal text *)

Lemma all_digits_uint d : all_digits (NilEmpty.string_of_uint d) = true.
Proof. induction d; simpl; auto. Qed.

Lemma digit_not_space c : is_Some (Ascii.is_nat c) → is_int_space c = false.
Proof.
  destruct c as [[] [] [] [] [] [] [] []]; simpl; intros [n Hn];
    done.
Qed.

Lemma lstrip_all_digits s : all_digits s = true → int_lstrip s = s.
Proof.
  destruct s as [|c s]; simpl; [done|].
  intros [Hc%bool_decide_eq_true _]%andb_prop.
  by rewrite digit_not_space.
Qed.

Lemma rstrip_all_digits s : all_digits s = true → int_rstrip s = s.
Proof.
  induction s as [|c s IH]; simpl; [done|].
  intros [Hc%bool_decide_eq_true Hs]%andb_prop.
  rewrite (IH Hs), digit_not_space by done. by destruct s.
Qed.

Lemma strip_all_digits s : all_digits s = true → int_strip s = s.
Proof.
  intros Hs. unfold int_strip. by rewrite lstrip_all_digits, rstrip_all_digits.
Qed.

Lemma all_digits_no_dash s : all_digits s = true → contains "-" s = false.
Proof.
  induction s as [|c s IH]; simpl; [done|].
  intros [Hc%bool_decide_eq_true Hs]%andb_prop. rewrite (IH Hs), orb_false_r.
  destruct c as [[] [] [] [] [] [] [] []]; try done; by destruct Hc.
Qed.

Lemma int_digits_acc d p :
  int_digits (Z.pos p) true (NilEmpty.string_of_uint d)
  = Some (Z.pos (Pos.of_uint_acc d p)).
Proof.
  revert p. induction d; intros p; simpl; [done|..];
    unfold digit; simpl;
    match goal with
    | |- int_digits ?z _ _ = Some (Z.pos (Pos.of_uint_acc _ ?q)) =>
        replace z with (Z.pos q) by lia
    end; apply IHd.
Qed.

Lemma int_digits_uint d prev :
  d ≠ Decimal.Nil ∨ prev = true →
  int_digits 0 prev (NilEmpty.string_of_uint d) = Some (Z.of_N (Pos.of_uint d)).
Proof.
  revert prev. induction d; intros prev Hd; simpl.
  - by destruct Hd as [?| ->].
  - unfold digit; simpl. apply IHd. by right.
  - unfold digit; simpl. apply (int_digits_acc d 1).
  - unfold digit; simpl. apply (int_digits_acc d 2).
  - unfold digit; simpl. apply (int_digits_acc d 3).
  - unfold digit; simpl. apply (int_digits_acc d 4).
  - unfold digit; simpl. apply (int_digits_acc d 5).
  - unfold digit; simpl. apply (int_digits_acc d 6).
  - unfold digit; simpl. apply (int_digits_acc d 7).
  - unfold digit; simpl. apply (int_digits_acc d 8).
  - unfold digit; simpl. apply (int_digits_acc d 9).
Qed.

Lemma str_int_pos p :
  str_int (Z.pos p) = NilEmpty.string_of_uint (Pos.to_uint p).
Proof.
  unfold str_int. simpl.
  pose proof (Unsigned.to_uint_nonnil p) as Hp.
  by destruct (Pos.to_uint p).
Qed.

Lemma all_digits_str_int n : 0 < n → all_digits (str_int n) = true.
Proof.
  destruct n as [|p|p]; try lia. intros _.
  rewrite str_int_pos. apply all_digits_uint.
Qed.

(** Reading back the decimal text of a positive integer. *)
Lemma int_str_int n : 0 < n → int (str_int n) = Ok n.
Proof.
  destruct n as [|p|p]; try lia. intros _.
  unfold int. rewrite strip_all_digits by (by apply all_digits_str_int).
  rewrite str_int_pos.
  pose proof (int_digits_uint (Pos.to_uint p) false
                (or_introl (Unsigned.to_uint_nonnil p))) as Hd.
  rewrite Unsigned.of_to in Hd. simpl Z.of_N in Hd.
  pose proof (all_digits_uint (Pos.to_uint p)) as Ha.
  destruct (NilEmpty.string_of_uint (Pos.to_uint p)) as [|c s] eqn:Hs.
  - by rewrite Hd.
  - simpl in Ha. apply andb_prop in Ha as [Hc%bool_decide_eq_true _].
    destruct c as [[] [] [] [] [] [] [] []];
      try (by destruct Hc); by rewrite Hd.
Qed.

Lemma unpack_position_name col row :
  0 < col → 0 < row →
  unpack_position (position_name_of col row) = Ok (col, row).
Proof.
  intros Hc Hr. unfold unpack_position, position_name_of.
  change ("-" +:+ str_int row) with (String "-" (str_int row)).
  rewrite split_append by (by apply all_digits_no_dash, all_digits_str_int).
  rewrite split_single by (by apply all_digits_no_dash, all_digits_str_int).
  by rewrite !int_str_int.
Qed.

Lemma position_name_of_inj col row col' row' :
  0 < col → 0 < row → 0 < col' → 0 < row' →
  position_name_of col row = position_name_of col' row' →
  col = col' ∧ row = row'.
Proof.
  intros ???? Heq.
  assert (Ok (col, row) = @Ok (Z * Z) (col', row')) as [= -> ->]; [|done].
  by rewrite <- !unpack_position_name, Heq.
Qed.

(** ** Submitting: the position *)

Lemma position_of_lookup (form_data : gmap string string) (p : string) :
  form_data !! "positionName" = Some p → nonempty p = true →
  position_of form_data = unpack_position p.
Proof.
  intros Hp Hne. unfold position_of, get. rewrite Hp. simpl. by rewrite Hne.
Qed.

Lemma sheet_names_differ : DATA_SHEET_NAME ≠ MAP_SHEET_NAME.
Proof. done. Qed.

(** What [update_workbook] comes to once the ledger and map sheets are
    there. *)
Lemma update_workbook_sheets (form_data : gmap string string)
    (timestamp : value) (wb : workbook) (data_sheet map_sheet : worksheet) :
  wb !! DATA_SHEET_NAME = Some data_sheet →
  wb !! MAP_SHEET_NAME = Some map_sheet →
  update_workbook form_data timestamp wb
  = '(col_index, row_index) ← position_of form_data;
    map_sheet' ← set_cell map_sheet row_index col_index
                   (VStr (new_cell_value_of form_data));
    mret (<[MAP_SHEET_NAME := map_sheet']>
            (<[DATA_SHEET_NAME :=
                 append data_sheet (new_row_of form_data timestamp)]> wb)).
Proof.
  intros Hd Hm. unfold update_workbook, append_ledger, getitem.
  rewrite Hd. simpl.
  rewrite lookup_insert_ne by apply sheet_names_differ.
  by rewrite Hm.
Qed.

(** C2 (position parsing).  On a file with the ledger and map sheets:
    the position ["3-5"] is read as column 3, row 5, and the cell text is
    written to row 5, column 3 of the map sheet; each of ["0-1"],
    ["-1-2"] and ["abc"] makes [submit_data] fail with an error of the
    [InvalidPosition] kind, the file being left as it was. *)
Theorem position_parsing (form_data : gmap string string) (timestamp : value)
    (wb : workbook) (data_sheet map_sheet : worksheet) :
  wb !! DATA_SHEET_NAME = Some data_sheet →
  wb !! MAP_SHEET_NAME = Some map_sheet →
  (form_data !! "positionName" = Some "3-5" →
     position_of form_data = Ok (3, 5)
     ∧ submit_data form_data timestamp (Some wb)
       = (Ok (),
          Some (<[MAP_SHEET_NAME :=
                    <[(5, 3) := VStr (new_cell_value_of form_data)]> map_sheet]>
                  (<[DATA_SHEET_NAME :=
                       append data_sheet (new_row_of form_data timestamp)]> wb))))
  ∧ (∀ p, p ∈ ["0-1"; "-1-2"; "abc"] →
       form_data !! "positionName" = Some p →
       ∃ e, submit_data form_data timestamp (Some wb) = (Err e, Some wb)
            ∧ InvalidPosition e).
Proof.
  intros Hd Hm. split.
  - intros Hp.
    assert (position_of form_data = Ok (3, 5)) as Hpos.
    { by rewrite (position_of_lookup _ "3-5"). }
    split; [done|].
    unfold submit_data. simpl.
    by rewrite (update_workbook_sheets _ _ _ _ _ Hd Hm), Hpos.
  - intros p Hin Hp. unfold submit_data. simpl.
    rewrite (update_workbook_sheets _ _ _ _ _ Hd Hm).
    rewrite (position_of_lookup _ p Hp)
      by (set_unfold in Hin; by destruct Hin as [->|[->|[->|[]]]]).
    set_unfold in Hin. destruct Hin as [->|[->|[->|[]]]].
    + by exists CellIndexBelowOne.
    + by exists (InvalidLiteral "").
    + by exists (InvalidLiteral "abc").
Qed.

Lemma position_parsing_witness :
  sample_workbook !! DATA_SHEET_NAME = Some sample_data_sheet
  ∧ sample_workbook !! MAP_SHEET_NAME = Some sample_map_sheet
  ∧ sample_form "3-5" !! "positionName" = Some "3-5"
  ∧ position_of (sample_form "3-5") = Ok (3, 5)
  ∧ ∃ e, submit_data (sample_form "0-1") (VDate "2024-01-02 09:30:00")
           (Some sample_workbook) = (Err e, Some sample_workbook)
         ∧ InvalidPosition e.
Proof.
  pose proof (position_parsing (sample_form "3-5") (VDate "2024-01-02 09:30:00")
                sample_workbook sample_data_sheet sample_map_sheet
                eq_refl eq_refl) as [H35 _].
  pose proof (position_parsing (sample_form "0-1") (VDate "2024-01-02 09:30:00")
                sample_workbook sample_data_sheet sample_map_sheet
                eq_refl eq_refl) as [_ Hbad].
  split; [reflexivity|]. split; [reflexivity|]. split; [reflexivity|].
  split.
  - apply H35. reflexivity.
  - apply (Hbad "0-1"); [|reflexivity]. apply list_elem_of_here.
Defined.

(** ** Worksheets *)

Lemma foldr_max_ge (l : list Z) (y x : Z) :
  x = y ∨ x ∈ l → x ≤ foldr Z.max y l.
Proof.
  induction l as [|z l IH]; simpl.
  - intros [->|?%elem_of_nil]; [lia|done].
  - intros [Hx|[Hx|Hx]%elem_of_cons]; [|lia|];
      (etrans; [apply IH; eauto|lia]).
Qed.

Lemma maximum_ge (d : Z) (l : list Z) (x : Z) : x ∈ l → x ≤ maximum d l.
Proof.
  destruct l as [|y l]; simpl; [by intros ?%elem_of_nil|].
  intros Hx%elem_of_cons. by apply foldr_max_ge.
Qed.

Lemma max_row_ge (ws : worksheet) row col v :
  ws !! (row, col) = Some v → row ≤ max_row ws.
Proof.
  intros Hv. apply maximum_ge, list_elem_of_fmap.
  exists ((row, col), v). split; [done|]. by apply elem_of_map_to_list.
Qed.

Lemma max_column_ge (ws : worksheet) row col v :
  ws !! (row, col) = Some v → col ≤ max_column ws.
Proof.
  intros Hv. apply maximum_ge, list_elem_of_fmap.
  exists ((row, col), v). split; [done|]. by apply elem_of_map_to_list.
Qed.

Lemma elem_of_bin_map_data (ws : worksheet) (e : gmap string string) :
  e ∈ bin_map_data_of ws
  ↔ ∃ row col, 1 ≤ row ≤ max_row ws ∧ 1 ≤ col ≤ max_column ws
               ∧ e = bin_entry (position_name_of col row) (cell_value ws row col).
Proof.
  unfold bin_map_data_of. rewrite list_elem_of_bind. split.
  - intros (row & (col & He%list_elem_of_singleton & Hcol%elem_of_seqZ)%list_elem_of_bind
                & Hrow%elem_of_seqZ).
    exists row, col. split_and!; [lia..|done].
  - intros (row & col & Hrow & Hcol & ->).
    exists row. split; [|apply elem_of_seqZ; lia].
    apply list_elem_of_bind. exists col.
    split; [apply list_elem_of_here|apply elem_of_seqZ; lia].
Qed.

Lemma bin_entry_position_name name v :
  bin_entry name v !! "positionName" = Some name.
Proof. unfold bin_entry. by destruct (truthy v && is_str v). Qed.

(** ** Writing a bin and reading it back *)

Lemma position_name_nonempty col row :
  nonempty (position_name_of col row) = true.
Proof. unfold position_name_of. by destruct (str_int col). Qed.


(** A submission at a position inside the grid succeeds and leaves the
    workbook with one more ledger row and the cell text in place. *)
Lemma submit_data_at (form_data : gmap string string) (timestamp : value)
    (wb : workbook) (data_sheet map_sheet : worksheet) (col row : Z) :
  0 < col → 0 < row →
  form_data !! "positionName" = Some (position_name_of col row) →
  wb !! DATA_SHEET_NAME = Some data_sheet →
  wb !! MAP_SHEET_NAME = Some map_sheet →
  submit_data form_data timestamp (Some wb)
  = (Ok (),
     Some (<[MAP_SHEET_NAME :=
               <[(row, col) := VStr (new_cell_value_of form_data)]> map_sheet]>
             (<[DATA_SHEET_NAME :=
                  append data_sheet (new_row_of form_data timestamp)]> wb))).
Proof.
  intros Hc Hr Hp Hd Hm. unfold submit_data. simpl.
  rewrite (update_workbook_sheets _ _ _ _ _ Hd Hm).
  rewrite (position_of_lookup _ _ Hp) by apply position_name_nonempty.
  rewrite unpack_position_name by done. simpl. unfold set_cell.
  replace (row <? 1) with false by lia. replace (col <? 1) with false by lia.
  done.
Qed.

Lemma get_data_sheets (wb : workbook) (options_sheet map_sheet : worksheet) :
  wb !! OPTIONS_SHEET_NAME = Some options_sheet →
  wb !! MAP_SHEET_NAME = Some map_sheet →
  get_data (Some wb)
  = Ok {| dropdownOptions := dropdown_options_of (values options_sheet);
          binMapData := bin_map_data_of map_sheet |}.
Proof. intros Ho Hm. unfold get_data, getitem. simpl. by rewrite Ho, Hm. Qed.



(** ** The grid that [get_data] returns *)

Lemma bind_singleton_fmap {A B} (g : A → B) (l : list A) :
  l ≫= (λ x, [g x]) = g <$> l.
Proof. induction l as [|x l IH]; [done|]. by rewrite bind_cons, IH. Qed.

Lemma length_bind_const {A B} (f : A → list B) (n : nat) (l : list A) :
  (∀ x, length (f x) = n) → length (l ≫= f) = (length l * n)%nat.
Proof.
  intros Hf. induction l as [|x l IH]; [done|].
  rewrite bind_cons, length_app, Hf, IH. simpl. lia.
Qed.

Lemma lookup_bind_const {A B} (f : A → list B) (n : nat) (l : list A)
    (i j : nat) (x : A) :
  (∀ y, length (f y) = n) → l !! i = Some x → (j < n)%nat →
  (l ≫= f) !! (i * n + j)%nat = f x !! j.
Proof.
  intros Hf. revert i. induction l as [|y l IH]; intros i Hi Hj; [done|].
  rewrite bind_cons. destruct i as [|i]; simpl in *.
  - simplify_eq. apply lookup_app_l. by rewrite Hf.
  - rewrite lookup_app_r by (rewrite Hf; lia).
    rewrite Hf. replace (n + i * n + j - n)%nat with (i * n + j)%nat by lia.
    by apply IH.
Qed.

Lemma bin_map_data_length (ws : worksheet) :
  length (bin_map_data_of ws)
  = (Z.to_nat (max_row ws) * Z.to_nat (max_column ws))%nat.
Proof.
  unfold bin_map_data_of.
  rewrite (length_bind_const _ (Z.to_nat (max_column ws))).
  - by rewrite length_seqZ.
  - intros row. by rewrite bind_singleton_fmap, length_fmap, length_seqZ.
Qed.

Lemma bin_map_data_lookup (ws : worksheet) (i j : nat) :
  Z.of_nat i < max_row ws → Z.of_nat j < max_column ws →
  bin_map_data_of ws !! (i * Z.to_nat (max_column ws) + j)%nat
  = Some (bin_entry (position_name_of (Z.of_nat j + 1) (Z.of_nat i + 1))
            (cell_value ws (Z.of_nat i + 1) (Z.of_nat j + 1))).
Proof.
  intros Hi Hj. unfold bin_map_data_of.
  rewrite (lookup_bind_const _ (Z.to_nat (max_column ws)) _ i j (1 + Z.of_nat i)).
  - rewrite bind_singleton_fmap, list_lookup_fmap, lookup_seqZ_lt by done.
    simpl. by rewrite !(Z.add_comm 1).
  - intros row. by rewrite bind_singleton_fmap, length_fmap, length_seqZ.
  - by apply lookup_seqZ_lt.
  - lia.
Qed.

(** The two shapes of an entry. *)
Lemma bin_entry_text name c s :
  let text := String c s in
  let lines := split newline text in
  bin_entry name (VStr text)
  = <["positionName" := name]>
      (<["binName" := line_or_empty lines 0]>
        (<["item" := line_or_empty lines 1]>
          (<["date" := line_or_empty lines 2]>
            (<["vendor" := line_or_empty lines 3]>
              (<["binValue" := text]> ∅))))).
Proof. done. Qed.

Lemma bin_entry_blank name v :
  truthy v && is_str v = false →
  bin_entry name v
  = <["positionName" := name]> (<["binName" := ""]> (<["binValue" := ""]> ∅)).
Proof. intros Hv. unfold bin_entry. by rewrite Hv. Qed.

(** C3, as the code has it.  For a map sheet of [M] rows and [N] columns
    [get_data] returns [M * N] entries, one per cell and row by row, the
    entry of row [i+1], column [j+1] being named ["(j+1)-(i+1)"].  Every
    entry carries [positionName], [binName] and [binValue].  The entry of
    a cell with a non-empty text carries the text as [binValue] and also
    [item], [date] and [vendor]; the entry of any other cell carries an
    empty [binName] and [binValue] and none of [item], [date],
    [vendor]. *)
Theorem bin_map_grid (wb : workbook) (options_sheet map_sheet : worksheet) :
  wb !! OPTIONS_SHEET_NAME = Some options_sheet →
  wb !! MAP_SHEET_NAME = Some map_sheet →
  ∃ response,
    get_data (Some wb) = Ok response
    ∧ length (binMapData response)
      = (Z.to_nat (max_row map_sheet) * Z.to_nat (max_column map_sheet))%nat
    ∧ ∀ i j : nat,
        Z.of_nat i < max_row map_sheet → Z.of_nat j < max_column map_sheet →
        ∃ entry,
          binMapData response !! (i * Z.to_nat (max_column map_sheet) + j)%nat
          = Some entry
          ∧ entry !! "positionName"
            = Some (position_name_of (Z.of_nat j + 1) (Z.of_nat i + 1))
          ∧ is_Some (entry !! "binName")
          ∧ is_Some (entry !! "binValue")
          ∧ match cell_value map_sheet (Z.of_nat i + 1) (Z.of_nat j + 1) with
            | VStr (String c s) =>
                entry !! "binValue" = Some (String c s)
                ∧ is_Some (entry !! "item")
                ∧ is_Some (entry !! "date")
                ∧ is_Some (entry !! "vendor")
            | _ =>
                entry !! "binName" = Some ""
                ∧ entry !! "binValue" = Some ""
                ∧ entry !! "item" = None
                ∧ entry !! "date" = None
                ∧ entry !! "vendor" = None
            end.
Proof.
  intros Ho Hm. eexists. split; [by apply get_data_sheets|]. simpl.
  split; [apply bin_map_data_length|].
  intros i j Hi Hj. eexists. split; [by apply bin_map_data_lookup|].
  split; [apply bin_entry_position_name|].
  destruct (cell_value map_sheet _ _) as [|[|c s]|n|b|nz image|image] eqn:Hv.
  all: try (rewrite bin_entry_blank by (by rewrite ?andb_false_r)).
  all: try rewrite bin_entry_text; cbv zeta.
  all: split_and!; first [done | by eexists].
Qed.

Lemma bin_map_grid_witness :
  sample_workbook !! OPTIONS_SHEET_NAME = Some sample_options_sheet
  ∧ sample_workbook !! MAP_SHEET_NAME = Some sample_map_sheet
  ∧ ∃ response,
      get_data (Some sample_workbook) = Ok response
      ∧ length (binMapData response) = 4%nat.
Proof.
  split; [reflexivity|]. split; [reflexivity|].
  destruct (bin_map_grid sample_workbook sample_options_sheet sample_map_sheet
              eq_refl eq_refl) as (response & Hget & Hlen & _).
  exists response. split; [exact Hget | exact Hlen].
Defined.

(** C3 as the specification words it fails: on the sample workbook the
    entry of the empty cell in row 1, column 2 has no [item], [date] or
    [vendor]. *)
Lemma bin_map_entries_counterexample :
  ¬ (∀ response entry,
       get_data (Some sample_workbook) = Ok response →
       entry ∈ binMapData response →
       is_Some (entry !! "positionName") ∧ is_Some (entry !! "binName")
       ∧ is_Some (entry !! "item") ∧ is_Some (entry !! "date")
       ∧ is_Some (entry !! "vendor") ∧ is_Some (entry !! "binValue")).
Proof.
  intros Hall.
  destruct (Hall _ (bin_entry (position_name_of 2 1)
                      (cell_value sample_map_sheet 1 2))
              (get_data_sheets sample_workbook sample_options_sheet
                 sample_map_sheet eq_refl eq_refl))
    as (_ & _ & [item Hitem] & _).
  - apply elem_of_bin_map_data. exists 1, 2. by vm_compute.
  - by vm_compute in Hitem.
Qed.

(** ** Lookup extraction *)

Lemma nonempty_true s : nonempty s = true ↔ s ≠ "".
Proof. by destruct s. Qed.

Lemma column_options_snoc col rows row :
  column_options col (rows ++ [row])
  = (options_step col (foldl (options_step col) ([], ∅) rows) row).1.
Proof. unfold column_options. by rewrite foldl_snoc. Qed.

Lemma column_texts_snoc col rows (row : list value) :
  column_texts col (rows ++ [row])
  = column_texts col rows
    ++ match row !! col with
       | Some v => if is_none v then [] else [strip (str v)]
       | None => []
       end.
Proof.
  unfold column_texts. rewrite omap_app. f_equal. simpl.
  destruct (row !! col) as [v|]; simpl; [|done]. by destruct (is_none v).
Qed.

(** The invariant of the loop: the list has no repeat, the set holds what
    the list holds, and the list holds the non-empty texts met so far. *)
Lemma options_loop_invariant col rows :
  let state := foldl (options_step col) ([], ∅) rows in
  NoDup state.1
  ∧ (∀ x, x ∈ state.2 ↔ x ∈ state.1)
  ∧ (∀ x, x ∈ state.1 ↔ x ∈ column_texts col rows ∧ x ≠ "").
Proof.
  induction rows as [|row rows IH] using rev_ind; simpl.
  - split_and!; [apply NoDup_nil_2| |].
    { intros x. split; [by intros ?%elem_of_empty|by intros ?%elem_of_nil]. }
    intros x. split; [by intros ?%elem_of_nil|by intros [?%elem_of_nil _]].
  - rewrite foldl_snoc, column_texts_snoc.
    destruct (foldl (options_step col) ([], ∅) rows) as [l seen].
    simpl in IH. destruct IH as (Hnd & Hseen & Hl).
    unfold options_step.
    destruct (row !! col) as [v|]; simpl; [|by rewrite app_nil_r].
    destruct (is_none v); simpl; [by rewrite app_nil_r|].
    destruct (nonempty (strip (str v))) eqn:Hne; simpl.
    2: { split_and!; [done..|]. intros x. rewrite elem_of_app, Hl.
         assert (strip (str v) = "") as -> by (by destruct (strip (str v))).
         split; [tauto|]. by intros [[?| ->%list_elem_of_singleton] ?]. }
    apply nonempty_true in Hne.
    case_bool_decide as Hnew; simpl.
    + split_and!.
      * apply NoDup_app. split_and!; [done| |apply NoDup_singleton].
        intros x Hx Hv. apply list_elem_of_singleton in Hv as ->.
        apply Hnew. exact (proj2 (Hseen _) Hx).
      * intros x. rewrite elem_of_union, elem_of_singleton, elem_of_app,
          list_elem_of_singleton, Hseen. tauto.
      * intros x. rewrite !elem_of_app, list_elem_of_singleton, Hl.
        split; [intros [[??]| ->]|intros [[?| ->] ?]]; auto.
    + split_and!; [done..|]. intros x. rewrite elem_of_app, Hl.
      split; [tauto|]. intros [[?|Hx%list_elem_of_singleton] ?]; [done|].
      subst x. apply (proj1 (Hl _)), (proj1 (Hseen _)).
      exact Hnew.
Qed.

Lemma options_step_prefix col state row :
  state.1 `prefix_of` (options_step col state row).1.
Proof.
  destruct state as [l seen]. unfold options_step.
  destruct (row !! col) as [v|]; [|done].
  destruct (negb (is_none v)); [|done].
  destruct (_ && _); [|done]. by apply prefix_app_r.
Qed.

Lemma options_loop_prefix col rows state :
  state.1 `prefix_of` (foldl (options_step col) state rows).1.
Proof.
  revert state. induction rows as [|row rows IH]; intros state; simpl; [done|].
  etrans; [apply options_step_prefix|apply IH].
Qed.

Lemma column_options_prefix col rows rows' :
  column_options col rows `prefix_of` column_options col (rows ++ rows').
Proof. unfold column_options. rewrite foldl_app. apply options_loop_prefix. Qed.

(** The keyed variant: every list of the mapping is the extraction of a
    column whose header is in the vocabulary, and every such column has
    its key in the mapping. *)
Lemma lookup_data_of_spec (header : list value) (rows : list (list value)) :
  let lookup := lookup_data_of (header :: rows) in
  (∀ key options, lookup !! key = Some options →
     ∃ col h, header !! col = Some (VStr h)
              ∧ HEADER_TO_JSON_KEY !! h = Some key
              ∧ options = column_options col rows)
  ∧ (∀ col h key, header !! col = Some (VStr h) →
       HEADER_TO_JSON_KEY !! h = Some key → is_Some (lookup !! key)).
Proof.
  unfold lookup_data_of.
  induction header as [|hd header IH] using rev_ind; simpl.
  - split; [by intros ?? ?%lookup_empty_Some|].
    intros col h key Hnil. by rewrite lookup_nil in Hnil.
  - rewrite enumerate_snoc, foldl_snoc. simpl in IH.
    set (m := foldl _ ∅ (enumerate header)) in *.
    destruct IH as [IH1 IH2].
    assert (∀ col (v : value), header !! col = Some v →
              (header ++ [hd]) !! col = Some v) as Hext.
    { intros col v Hv. by apply lookup_app_l_Some. }
    assert (∀ col (v : value), (header ++ [hd]) !! col = Some v →
              header !! col = Some v ∨ (col = length header ∧ v = hd)) as Hsplit.
    { intros col v [?|[? Hv]]%lookup_app_Some; [by left|right].
      apply list_lookup_singleton_Some in Hv as [Hz ->]. split; [lia|done]. }
    destruct hd as [|h|n|b|nz image|image];
      try (split;
           [intros key options (col & h' & ? & ?)%IH1; exists col, h'; split; eauto
           |intros col h' key [?|[_ [=]]]%Hsplit ?; eauto]).
    destruct (HEADER_TO_JSON_KEY !! h) as [json_key|] eqn:Hkey.
    + split.
      * intros key options. rewrite lookup_insert_Some.
        intros [(<- & <-)|(_ & (col & h' & ? & ?)%IH1)].
        -- exists (length header), h. split_and!; [|done..].
           by rewrite lookup_app_r, Nat.sub_diag.
        -- exists col, h'. split; eauto.
      * intros col h' key [Hcol|[_ [= <-]]]%Hsplit Hk.
        -- destruct (decide (json_key = key)) as [->|Hne].
           ++ rewrite lookup_insert_eq. by eexists.
           ++ rewrite lookup_insert_ne by done. eauto.
        -- rewrite Hkey in Hk. injection Hk as ->.
           rewrite lookup_insert_eq. by eexists.
    + split.
      * intros key options (col & h' & ? & ?)%IH1. exists col, h'. split; eauto.
      * intros col h' key [?|[_ [= <-]]]%Hsplit Hk; [eauto|congruence].
Qed.

(** The unkeyed variant: the assignments are the extractions of the
    columns whose header is true. *)
Lemma dropdown_options_of_spec (header : list value) (rows : list (list value))
    (key : value) (options : list string) :
  (key, options) ∈ dropdown_options_of (header :: rows)
  ↔ ∃ col, header !! col = Some key ∧ truthy key = true
           ∧ options = column_options col rows.
Proof.
  unfold dropdown_options_of.
  induction header as [|hd header IH] using rev_ind; simpl.
  - split; [by intros ?%elem_of_nil|].
    intros (col & Hnil & _). by rewrite lookup_nil in Hnil.
  - rewrite enumerate_snoc, foldl_snoc.
    set (acc := foldl _ [] (enumerate header)) in *.
    assert ((∃ col, (header ++ [hd]) !! col = Some key ∧ truthy key = true
                    ∧ options = column_options col rows)
            ↔ (∃ col, header !! col = Some key ∧ truthy key = true
                      ∧ options = column_options col rows)
              ∨ (key = hd ∧ truthy key = true
                 ∧ options = column_options (length header) rows)) as ->.
    { split.
      - intros (col & [?|[? Hv]]%lookup_app_Some & ? & ?); [left; eauto|right].
        apply list_lookup_singleton_Some in Hv as [Hz ->].
        replace (length header) with col by lia. done.
      - intros [(col & ? & ? & ?)|(-> & ? & ?)].
        + exists col. split_and!; [|done..]. by apply lookup_app_l_Some.
        + exists (length header). split_and!; [|done..].
          by rewrite lookup_app_r, Nat.sub_diag. }
    rewrite <- IH. simpl.
    destruct (truthy hd) eqn:Hhd.
    + rewrite elem_of_app, list_elem_of_singleton. split.
      * intros [?|[= -> ->]]; [by left|by right].
      * intros [?|(-> & _ & ->)]; [by left|by right].
    + split; [by left|]. intros [?|(-> & ? & _)]; [done|congruence].
Qed.

Lemma get_rowdown_data_sheet (wb : workbook) (rowdown_sheet : worksheet) :
  wb !! SALE_ROWDOWN_NAME = Some rowdown_sheet →
  get_rowdown_data (Some wb) = Ok (lookup_data_of (values rowdown_sheet)).
Proof. intros Hs. unfold get_rowdown_data. simpl. by rewrite Hs. Qed.

(** C5 (lookup extraction).  The list extracted for a column has no
    repeat, holds exactly the non-empty stripped texts of the column, and
    keeps them in the order in which they are first met: reading more rows
    only extends it at the end.  The column ["b","a","b","","a","c"] gives
    ["b","a","c"].  Both handlers use this extraction: every list of
    [lookupData] is the extraction of a column whose header is in the
    fixed vocabulary (and every such column is represented), and the
    assignments of [dropdownOptions] are the extractions of the columns
    whose header is true. *)
Theorem lookup_extraction (wb : workbook)
    (options_sheet map_sheet rowdown_sheet : worksheet)
    (header_o header_r : list value) (rows_o rows_r : list (list value)) :
  wb !! OPTIONS_SHEET_NAME = Some options_sheet →
  wb !! MAP_SHEET_NAME = Some map_sheet →
  wb !! SALE_ROWDOWN_NAME = Some rowdown_sheet →
  values options_sheet = header_o :: rows_o →
  values rowdown_sheet = header_r :: rows_r →
  (∀ col rows,
     NoDup (column_options col rows)
     ∧ (∀ x, x ∈ column_options col rows ↔ x ∈ column_texts col rows ∧ x ≠ "")
     ∧ (∀ rows', column_options col rows `prefix_of` column_options col (rows ++ rows')))
  ∧ column_options 0 [[VStr "b"]; [VStr "a"]; [VStr "b"]; [VStr ""];
                      [VStr "a"]; [VStr "c"]] = ["b"; "a"; "c"]
  ∧ ∃ lookup response,
      get_rowdown_data (Some wb) = Ok lookup
      ∧ get_data (Some wb) = Ok response
      ∧ (∀ key options, lookup !! key = Some options →
           ∃ col h, header_r !! col = Some (VStr h)
                    ∧ HEADER_TO_JSON_KEY !! h = Some key
                    ∧ options = column_options col rows_r)
      ∧ (∀ col h key, header_r !! col = Some (VStr h) →
           HEADER_TO_JSON_KEY !! h = Some key → is_Some (lookup !! key))
      ∧ (∀ key options,
           (key, options) ∈ dropdownOptions response
           ↔ ∃ col, header_o !! col = Some key ∧ truthy key = true
                    ∧ options = column_options col rows_o).
Proof.
  intros Ho Hm Hr Hvo Hvr. split_and!.
  - intros col rows.
    destruct (options_loop_invariant col rows) as (Hnd & _ & Hl).
    split_and!; [done|done|]. intros rows'. apply column_options_prefix.
  - reflexivity.
  - eexists _, _.
    split; [by apply get_rowdown_data_sheet|].
    split; [by apply (get_data_sheets _ options_sheet map_sheet)|].
    simpl. rewrite Hvo, Hvr.
    destruct (lookup_data_of_spec header_r rows_r) as [H1 H2].
    split_and!; [done|done|].
    intros key options. apply dropdown_options_of_spec.
Qed.

Lemma lookup_extraction_witness :
  ∃ lookup response,
    get_rowdown_data (Some sample_workbook) = Ok lookup
    ∧ get_data (Some sample_workbook) = Ok response
    ∧ (∀ key options,
         (key, options) ∈ dropdownOptions response
         ↔ ∃ col, [VStr "grade"; VNone] !! col = Some key ∧ truthy key = true
                  ∧ options
                    = column_options col
                        [[VStr "b"; VNone]; [VStr "a"; VNone]; [VStr "b"; VNone];
                         [VStr ""; VNone]; [VStr "a"; VNone]; [VStr "c"; VNone]]).
Proof.
  destruct (lookup_extraction sample_workbook sample_options_sheet
              sample_map_sheet sample_rowdown_sheet
              [VStr "grade"; VNone] [VStr "車號"; VStr "memo"]
              [[VStr "b"; VNone]; [VStr "a"; VNone]; [VStr "b"; VNone];
               [VStr ""; VNone]; [VStr "a"; VNone]; [VStr "c"; VNone]]
              [[VStr "b"; VStr "x"]; [VStr "a"; VNone]; [VStr "b"; VNone];
               [VStr ""; VNone]; [VStr "a"; VNone]; [VStr "c"; VNone]]
              eq_refl eq_refl eq_refl eq_refl eq_refl)
    as (_ & _ & lookup & response & Hl & Hr & _ & _ & Hd).
  exists lookup, response. split; [exact Hl|]. split; [exact Hr|exact Hd].
Defined.

(** The column of the specification through both handlers. *)
Example sales_lookups_sample :
  get_rowdown_data (Some sample_workbook)
  = Ok {["carNumbers" := ["b"; "a"; "c"]]}.
Proof. vm_compute. reflexivity. Qed.

Example dropdown_options_sample :
  dropdownOptions <$> (match get_data (Some sample_workbook) with
                       | Ok response => Some response
                       | Err _ => None
                       end)
  = Some [(VStr "grade", ["b"; "a"; "c"])].
Proof. vm_compute. reflexivity. Qed.

(** ** The ledger *)

Lemma foldr_max_le (l : list Z) (y b : Z) :
  y ≤ b → (∀ x, x ∈ l → x ≤ b) → foldr Z.max y l ≤ b.
Proof.
  intros Hy. induction l as [|z l IH]; simpl; intros Hl; [done|].
  apply Z.max_lub.
  - apply Hl, list_elem_of_here.
  - apply IH. intros x Hx. by apply Hl, list_elem_of_further.
Qed.

Lemma maximum_le (d : Z) (l : list Z) (b : Z) :
  l ≠ [] → (∀ x, x ∈ l → x ≤ b) → maximum d l ≤ b.
Proof.
  destruct l as [|y l]; [done|]. intros _ Hl. simpl.
  apply foldr_max_le.
  - apply Hl, list_elem_of_here.
  - intros x Hx. by apply Hl, list_elem_of_further.
Qed.

Lemma max_row_le (ws : worksheet) (b : Z) :
  ws ≠ ∅ → (∀ r c v, ws !! (r, c) = Some v → r ≤ b) → max_row ws ≤ b.
Proof.
  intros Hne Hb. apply maximum_le.
  - intros Hnil%fmap_nil_inv. by apply Hne, map_to_list_empty_iff.
  - intros r ([[r' c] v] & -> & Hin%elem_of_map_to_list)%list_elem_of_fmap.
    by apply (Hb r' c v).
Qed.

Lemma current_row_nonempty (ws : worksheet) :
  ws ≠ ∅ → current_row ws = max_row ws.
Proof.
  intros Hne. unfold current_row.
  destruct (map_to_list ws) eqn:Hl; [|done].
  by apply map_to_list_empty_iff in Hl.
Qed.

Lemma current_row_ge (ws : worksheet) r c v :
  ws !! (r, c) = Some v → r ≤ current_row ws.
Proof.
  intros Hv. rewrite current_row_nonempty.
  - by apply (max_row_ge _ _ c v).
  - intros ->. by rewrite lookup_empty in Hv.
Qed.

(** The cells after writing [row] into row [row_idx]. *)
Lemma write_row_lookup (ws : worksheet) (row_idx : Z) (row : list value) r c :
  foldl (λ cells '(i, v), <[(row_idx, Z.of_nat i + 1) := v]> cells)
        ws (enumerate row) !! (r, c)
  = if decide (r = row_idx ∧ 1 ≤ c ≤ Z.of_nat (length row))
    then row !! Z.to_nat (c - 1)
    else ws !! (r, c).
Proof.
  induction row as [|x row IH] using rev_ind.
  - simpl. rewrite decide_False by lia. done.
  - rewrite enumerate_snoc, foldl_snoc, length_app. simpl.
    destruct (decide ((r, c) = (row_idx, Z.of_nat (length row) + 1)))
      as [[= -> ->]|Hne].
    + rewrite lookup_insert_eq, decide_True by lia.
      rewrite lookup_app_r by lia.
      replace (Z.to_nat (Z.of_nat (length row) + 1 - 1) - length row)%nat
        with 0%nat by lia.
      done.
    + rewrite lookup_insert_ne by done. rewrite IH.
      destruct (decide (r = row_idx ∧ 1 ≤ c ≤ Z.of_nat (length row)))
        as [[-> Hc]|Hout].
      * rewrite decide_True by lia. rewrite lookup_app_l by lia. done.
      * rewrite decide_False; [done|].
        intros [-> Hc]. apply Hout. split; [done|].
        assert (c ≠ Z.of_nat (length row) + 1) by congruence. lia.
Qed.

Lemma append_appends_row (ws : worksheet) (row : list value) :
  row ≠ [] → appends_row ws (append ws row) row.
Proof.
  intros Hrow. unfold appends_row, row_count.
  assert (∀ r c, append ws row !! (r, c)
                 = if decide (r = current_row ws + 1
                              ∧ 1 ≤ c ≤ Z.of_nat (length row))
                   then row !! Z.to_nat (c - 1)
                   else ws !! (r, c)) as Hlook.
  { intros r c. apply write_row_lookup. }
  assert (0 < length row)%nat as Hlen by (destruct row; [done|simpl; lia]).
  destruct (lookup_lt_is_Some_2 row 0 Hlen) as [x Hx].
  assert (append ws row !! (current_row ws + 1, 1) = Some x) as Hfirst.
  { rewrite Hlook, decide_True by lia. done. }
  split_and!.
  - rewrite (current_row_nonempty (append ws row)).
    2: { intros Hempty. by rewrite Hempty, lookup_empty in Hfirst. }
    apply Z.le_antisymm.
    + apply max_row_le.
      { intros Hempty. by rewrite Hempty, lookup_empty in Hfirst. }
      intros r c v. rewrite Hlook. case_decide as Hd; [lia|].
      intros ?%current_row_ge. lia.
    + by apply (max_row_ge _ _ 1 x).
  - intros r c v Hv. pose proof (current_row_ge _ _ _ _ Hv).
    split; [done|]. rewrite Hlook, decide_False by lia. done.
  - intros r c Hr. rewrite Hlook, decide_False by lia. done.
  - intros i. rewrite Hlook.
    destruct (decide (i < length row)%nat).
    + rewrite decide_True by lia. f_equal. lia.
    + rewrite decide_False by lia. rewrite (lookup_ge_None_2 row i) by lia.
      destruct (ws !! _) as [v|] eqn:Hv; [|done].
      apply current_row_ge in Hv. lia.
Qed.

(** What a successful submission has gone through. *)
Lemma submit_data_ok_inv (form_data : gmap string string) (timestamp : value)
    (f f' : file) :
  submit_data form_data timestamp f = (Ok (), f') →
  ∃ (wb : workbook) (data_sheet map_sheet : worksheet) (col row : Z),
    f = Some wb
    ∧ wb !! DATA_SHEET_NAME = Some data_sheet
    ∧ wb !! MAP_SHEET_NAME = Some map_sheet
    ∧ position_of form_data = Ok (col, row)
    ∧ (row <? 1) || (col <? 1) = false
    ∧ f' = Some (<[MAP_SHEET_NAME :=
                     <[(row, col) := VStr (new_cell_value_of form_data)]> map_sheet]>
                   (<[DATA_SHEET_NAME :=
                        append data_sheet (new_row_of form_data timestamp)]> wb)).
Proof.
  unfold submit_data. destruct f as [wb|]; simpl; [|done].
  destruct (wb !! DATA_SHEET_NAME) as [data_sheet|] eqn:Hd.
  2: { unfold update_workbook, append_ledger, getitem. by rewrite Hd. }
  destruct (wb !! MAP_SHEET_NAME) as [map_sheet|] eqn:Hm.
  2: { unfold update_workbook, append_ledger, getitem. rewrite Hd. simpl.
       rewrite lookup_insert_ne by apply sheet_names_differ. by rewrite Hm. }
  rewrite (update_workbook_sheets _ _ _ _ _ Hd Hm).
  destruct (position_of form_data) as [[col row]|e] eqn:Hp; simpl; [|done].
  unfold set_cell. destruct ((row <? 1) || (col <? 1)) eqn:Hrc; simpl; [done|].
  intros [= <-]. by exists wb, data_sheet, map_sheet, col, row.
Qed.

Lemma submit_data_ok (form_data : gmap string string) (timestamp : value)
    (wb : workbook) (data_sheet map_sheet : worksheet) (col row : Z) :
  wb !! DATA_SHEET_NAME = Some data_sheet →
  wb !! MAP_SHEET_NAME = Some map_sheet →
  position_of form_data = Ok (col, row) →
  (row <? 1) || (col <? 1) = false →
  submit_data form_data timestamp (Some wb)
  = (Ok (),
     Some (<[MAP_SHEET_NAME :=
               <[(row, col) := VStr (new_cell_value_of form_data)]> map_sheet]>
             (<[DATA_SHEET_NAME :=
                  append data_sheet (new_row_of form_data timestamp)]> wb))).
Proof.
  intros Hd Hm Hp Hrc. unfold submit_data. simpl.
  rewrite (update_workbook_sheets _ _ _ _ _ Hd Hm), Hp. simpl.
  unfold set_cell. by rewrite Hrc.
Qed.

Lemma ledger_after_submit (wb : workbook) (map_sheet data_sheet : worksheet) :
  ledger (Some (<[MAP_SHEET_NAME := map_sheet]>
                  (<[DATA_SHEET_NAME := data_sheet]> wb)))
  = Some data_sheet.
Proof.
  unfold ledger. simpl.
  rewrite lookup_insert_ne by (by intros ?%symmetry%sheet_names_differ).
  apply lookup_insert_eq.
Qed.

Lemma new_row_of_fields (form_data : gmap string string) (t t' : value) (i : nat) :
  (1 ≤ i)%nat → new_row_of form_data t !! i = new_row_of form_data t' !! i.
Proof. destruct i as [|i]; [lia|done]. Qed.

(** C8 (append-only ledger).  A successful [submit_data] leaves a ledger
    that is the former one with exactly one more row at its end, holding
    the submitted values; no former cell is changed, moved or removed.
    Submitting the same form once more succeeds again and adds a second
    row with the same form values: the ledger has grown by two rows. *)
Theorem ledger_append_only (form_data : gmap string string)
    (timestamp timestamp' : value) (f f' : file) :
  submit_data form_data timestamp f = (Ok (), f') →
  ∃ before after,
    ledger f = Some before
    ∧ ledger f' = Some after
    ∧ appends_row before after (new_row_of form_data timestamp)
    ∧ ∃ f'' after',
        submit_data form_data timestamp' f' = (Ok (), f'')
        ∧ ledger f'' = Some after'
        ∧ appends_row after after' (new_row_of form_data timestamp')
        ∧ row_count after' = row_count before + 2
        ∧ ∀ i : nat,
            (1 ≤ i)%nat →
            after' !! (row_count before + 1, Z.of_nat i + 1)
            = new_row_of form_data timestamp !! i
            ∧ after' !! (row_count before + 2, Z.of_nat i + 1)
              = new_row_of form_data timestamp !! i.
Proof.
  intros (wb & data_sheet & map_sheet & col & row & -> & Hd & Hm & Hp & Hrc & ->)
         %submit_data_ok_inv.
  set (after := append data_sheet (new_row_of form_data timestamp)).
  set (after' := append after (new_row_of form_data timestamp')).
  assert (appends_row data_sheet after (new_row_of form_data timestamp)) as H1
    by (by apply append_appends_row).
  assert (appends_row after after' (new_row_of form_data timestamp')) as H2
    by (by apply append_appends_row).
  exists data_sheet, after.
  split; [by unfold ledger|].
  split; [apply ledger_after_submit|].
  split; [done|].
  eexists _, after'. split.
  { apply (submit_data_ok _ _ _ after
             (<[(row, col) := VStr (new_cell_value_of form_data)]> map_sheet)
             col row); [| |done..].
    - rewrite lookup_insert_ne by (by intros ?%symmetry%sheet_names_differ).
      apply lookup_insert_eq.
    - apply lookup_insert_eq. }
  split; [apply ledger_after_submit|].
  split; [done|].
  destruct H1 as (Hc1 & _ & _ & Hrow1). destruct H2 as (Hc2 & _ & Hout2 & Hrow2).
  split; [lia|].
  intros i Hi. split.
  - rewrite Hout2 by lia. apply Hrow1.
  - replace (row_count data_sheet + 2) with (row_count after + 1) by lia.
    rewrite Hrow2. by apply new_row_of_fields.
Qed.

Lemma ledger_append_only_witness :
  ∃ f' before after,
    submit_data (sample_form "3-5") (VDate "2024-01-02 09:30:00")
      (Some sample_workbook) = (Ok (), f')
    ∧ ledger (Some sample_workbook) = Some before
    ∧ ledger f' = Some after
    ∧ appends_row before after
        (new_row_of (sample_form "3-5") (VDate "2024-01-02 09:30:00")).
Proof.
  pose proof (submit_data_at (sample_form "3-5") (VDate "2024-01-02 09:30:00")
                sample_workbook sample_data_sheet sample_map_sheet 3 5
                eq_refl eq_refl eq_refl eq_refl eq_refl) as Hsubmit.
  destruct (ledger_append_only (sample_form "3-5")
              (VDate "2024-01-02 09:30:00") (VDate "2024-01-02 09:31:00")
              (Some sample_workbook) _ Hsubmit)
    as (before & after & Hb & Ha & Happ & _).
  eexists _, before, after.
  split; [exact Hsubmit|].
  split; [exact Hb|]. split; [exact Ha|exact Happ].
Defined.

(** ** Failure leaves the file alone *)

Lemma step_keeps_file (form_data : gmap string string) (timestamp : value)
    (st : stage) (f : file) :
  (step form_data timestamp (st, f)).1 ≠ Saved →
  st ≠ Saved ∧ (step form_data timestamp (st, f)).2 = f.
Proof. destruct st; simpl; try done. Qed.

Lemma run_keeps_file (form_data : gmap string string) (timestamp : value)
    (n : nat) (f : file) :
  (run form_data timestamp n f).1 ≠ Saved →
  (run form_data timestamp n f).2 = f.
Proof.
  unfold run. induction n as [|n IH]; simpl; [done|].
  destruct (Nat.iter n _ _) as [st g]. simpl in IH.
  intros [Hst ->]%step_keeps_file. by apply IH.
Qed.

(** Six stages carry the machine to the end, and it ends as the handler
    does. *)
Lemma run_submit_data (form_data : gmap string string) (timestamp : value)
    (f : file) :
  run form_data timestamp 6 f
  = match submit_data form_data timestamp f with
    | (Ok _, f') => (Saved, f')
    | (Err e, f') => (Failed e, f')
    end.
Proof.
  unfold run, submit_data. simpl.
  destruct f as [wb|]; simpl; [|done].
  unfold update_workbook.
  destruct (append_ledger form_data timestamp wb) as [wb1|e]; simpl; [|done].
  destruct (getitem wb1 MAP_SHEET_NAME) as [map_sheet|e]; simpl; [|done].
  destruct (position_of form_data) as [[col row]|e]; simpl; [|done].
  by destruct (set_cell map_sheet row col _) as [map_sheet'|e].
Qed.

Lemma submit_data_err_file (form_data : gmap string string) (timestamp : value)
    (f f' : file) (e : exn) :
  submit_data form_data timestamp f = (Err e, f') → f' = f.
Proof.
  unfold submit_data.
  by destruct (load_workbook f ≫= update_workbook form_data timestamp);
    intros [= <-].
Qed.

Lemma submit_data_bad_position (form_data : gmap string string)
    (timestamp : value) (f : file) (e : exn) :
  position_of form_data = Err e →
  ∃ e', submit_data form_data timestamp f = (Err e', f).
Proof.
  intros Hp. unfold submit_data.
  destruct f as [wb|]; simpl; [|by eexists].
  unfold update_workbook.
  destruct (append_ledger form_data timestamp wb) as [wb1|e1]; simpl;
    [|by eexists].
  destruct (getitem wb1 MAP_SHEET_NAME) as [map_sheet|e2]; simpl;
    [|by eexists].
  rewrite Hp. simpl. by eexists.
Qed.

(** C10 (nothing is written on failure).  The file changes only at the
    final save.  If [submit_data] answers with an error the file is the
    one it started from; this is the case whenever the position is
    missing or does not parse, although the ledger row has been appended
    in memory by then.  Stopping the handler after any number of stages
    short of the save - in particular after the cell text has been built
    or put into the sheet in memory - leaves the file as it was.  The
    staged handler always ends within six stages, as [submit_data]
    does. *)
Theorem write_atomicity (form_data : gmap string string) (timestamp : value)
    (f : file) :
  (∀ e f', submit_data form_data timestamp f = (Err e, f') → f' = f)
  ∧ (∀ e, position_of form_data = Err e →
       ∃ e', submit_data form_data timestamp f = (Err e', f))
  ∧ (∀ n, (run form_data timestamp n f).1 ≠ Saved →
       (run form_data timestamp n f).2 = f)
  ∧ run form_data timestamp 6 f
    = match submit_data form_data timestamp f with
      | (Ok _, f') => (Saved, f')
      | (Err e, f') => (Failed e, f')
      end.
Proof.
  split_and!.
  - intros e f'. apply submit_data_err_file.
  - intros e. apply submit_data_bad_position.
  - intros n. apply run_keeps_file.
  - apply run_submit_data.
Qed.

Lemma write_atomicity_witness :
  (∃ e', submit_data (sample_form "abc") (VDate "2024-01-02 09:30:00")
           (Some sample_workbook) = (Err e', Some sample_workbook))
  ∧ (run (sample_form "3-5") (VDate "2024-01-02 09:30:00") 5
       (Some sample_workbook)).2 = Some sample_workbook.
Proof.
  split.
  - apply (proj1 (proj2 (write_atomicity (sample_form "abc")
                           (VDate "2024-01-02 09:30:00") (Some sample_workbook)))
             (InvalidLiteral "abc")).
    reflexivity.
  - apply (proj1 (proj2 (proj2 (write_atomicity (sample_form "3-5")
                                  (VDate "2024-01-02 09:30:00")
                                  (Some sample_workbook))))).
    vm_compute. discriminate.
Defined.

(** The stage reached just before the save holds the new cell in memory
    only. *)
Example crash_before_save :
  ∃ wb, run (sample_form "3-5") (VDate "2024-01-02 09:30:00") 5
          (Some sample_workbook) = (Written wb, Some sample_workbook)
        ∧ (wb !! MAP_SHEET_NAME) ≫= (.!! (5, 3))
          = Some (VStr (new_cell_value_of (sample_form "3-5"))).
Proof. eexists. split; vm_compute; reflexivity. Qed.

(** ** Goods *)

(** The comprehension of lines 188-189 goes through exactly when the row
    has no more cells than there are kept headers; otherwise it raises. *)
Lemma row_dict_of_cases (headers : list string) (row : list value) :
  if decide (length row ≤ length headers)%nat
  then is_ok (row_dict_of headers row) = true
  else row_dict_of headers row = Err IndexError.
Proof.
  unfold row_dict_of.
  induction row as [|v row IH] using rev_ind.
  - rewrite decide_True by (simpl; lia). done.
  - rewrite enumerate_snoc, foldl_snoc, length_app. simpl.
    destruct (decide (length row ≤ length headers)%nat) as [Hle|Hgt].
    + destruct (foldl _ _ _) as [row_dict|e]; [|done]. simpl.
      destruct (decide (length row + 1 ≤ length headers)%nat) as [Hle'|Hgt'].
      * destruct (lookup_lt_is_Some_2 headers (length row)) as [h Hh]; [lia|].
        unfold index. by rewrite Hh.
      * unfold index. by rewrite lookup_ge_None_2 by lia.
    + rewrite decide_False by lia. by rewrite IH.
Qed.

Lemma row_dict_of_long_row (headers : list string) (row : list value) :
  (length headers < length row)%nat → row_dict_of headers row = Err IndexError.
Proof.
  intros Hlen. pose proof (row_dict_of_cases headers row) as Hc.
  by rewrite decide_False in Hc by lia.
Qed.

(** C9, where the code departs from it.  On a goods sheet whose header
    row has a gap, the gap is dropped from the headers, the first data row
    is then longer than the headers, and [get_goods_data] fails with
    [IndexError] instead of returning the row with the missing field
    empty. *)
Theorem get_goods_data_header_gap :
  goods_headers (row_values sample_gap_goods_sheet 1) = ["品名"; "庫存"]
  ∧ iter_rows sample_gap_goods_sheet 2 = [[VStr "rice"; VNone; VInt 5]]
  ∧ get_goods_data (Some sample_gap_workbook) = Err IndexError.
Proof. split_and!; vm_compute; reflexivity. Qed.

(** The customer scan, on the same shape of sheet, keeps going. *)
Example get_customers_header_gap :
  get_customers {["id_query" := "c1"]}
    (Some (<[CUSTOMER_SHEET_NAME :=
               list_to_map [((1, 1), VStr "客戶編號"); ((1, 3), VStr "客戶名稱");
                            ((2, 1), VStr "C100"); ((2, 3), VStr "Acme Corp")]]>
             sample_workbook))
  = Ok [Customer "C100" "Acme Corp" "" ""].
Proof. vm_compute. reflexivity. Qed.

(** * Further properties of the handlers *)

(** ** What a position string can be *)

Lemma contains_lstrip c s :
  contains c (int_lstrip s) = true → contains c s = true.
Proof.
  induction s as [|c' s IH]; simpl; [done|].
  destruct (is_int_space c'); [|done].
  intros ?%IH. apply orb_true_intro. by right.
Qed.

Lemma contains_rstrip c s :
  contains c (int_rstrip s) = true → contains c s = true.
Proof.
  induction s as [|c' s IH]; simpl; [done|].
  destruct (int_rstrip s) as [|c'' t] eqn:Hr.
  - destruct (is_int_space c'); simpl; [done|].
    rewrite orb_false_r. intros ->. done.
  - simpl. intros [->|H]%orb_prop; [done|].
    rewrite IH; [by rewrite orb_true_r|done].
Qed.

Lemma contains_strip c s :
  contains c s = false → contains c (int_strip s) = false.
Proof.
  intros Hs. destruct (contains c (int_strip s)) eqn:Hc; [|done].
  apply contains_rstrip, contains_lstrip in Hc. congruence.
Qed.

Lemma split_parts_no_sep sep s p : p ∈ split sep s → contains sep p = false.
Proof.
  revert p. induction s as [|c s IH]; simpl; intros p.
  - by intros ->%list_elem_of_singleton.
  - destruct (Ascii.eqb c sep) eqn:Hc.
    + intros [->|Hp]%elem_of_cons; [done|by apply IH].
    + destruct (split sep s) as [|h t]; simpl.
      * intros ->%list_elem_of_singleton. simpl. by rewrite Hc.
      * intros [->|Hp]%elem_of_cons.
        -- simpl. rewrite Hc. apply IH, list_elem_of_here.
        -- by apply IH, list_elem_of_further.
Qed.

Lemma int_digits_nonneg s acc prev n :
  0 ≤ acc → int_digits acc prev s = Some n → 0 ≤ n.
Proof.
  revert acc prev. induction s as [|c s IH]; simpl; intros acc prev Hacc.
  - destruct prev; [|done]. by intros [= <-].
  - destruct (digit c) as [d|] eqn:Hd.
    + apply IH. unfold digit in Hd.
      destruct (Ascii.is_nat c) as [k|]; simplify_eq/=. lia.
    + destruct (Ascii.eqb c "_" && prev); [by apply IH|done].
Qed.

Lemma int_nonneg s n : contains "-" s = false → int s = Ok n → 0 ≤ n.
Proof.
  intros Hs%contains_strip. unfold int.
  destruct (int_strip s) as [|c t] eqn:Ht; simpl; [done|].
  simpl in Hs. apply orb_false_elim in Hs as [Hc _].
  assert (∀ r : option Z, (∀ m, r = Some m → 0 ≤ m) →
            match r with Some m => Ok m | None => Err (InvalidLiteral s) end
            = Ok n → 0 ≤ n) as Hr.
  { intros [m|] Hm; [|done]. intros [= <-]. by apply Hm. }
  destruct c as [[] [] [] [] [] [] [] []]; try done;
    apply Hr; intros m; by apply int_digits_nonneg.
Qed.

(** X1.  A position string that [submit_data] accepts has exactly two
    parts around one ["-"], and neither number is negative: the sign
    character is the separator, so a negative coordinate cannot be
    written down. *)
Theorem unpack_position_nonneg (bin_position : string) (col_index row_index : Z) :
  unpack_position bin_position = Ok (col_index, row_index) →
  length (split "-" bin_position) = 2%nat
  ∧ 0 ≤ col_index ∧ 0 ≤ row_index.
Proof.
  unfold unpack_position.
  pose proof (split_parts_no_sep "-" bin_position) as Hparts.
  destruct (split "-" bin_position) as [|p0 [|p1 [|p2 rest]]]; [done| | |].
  - by destruct (int p0).
  - destruct (int p0) as [c|] eqn:H0; simpl; [|done].
    destruct (int p1) as [r|] eqn:H1; simpl; [|done].
    intros [= <- <-]. split; [done|]. split.
    + apply (int_nonneg p0); [|done]. apply Hparts, list_elem_of_here.
    + apply (int_nonneg p1); [|done].
      apply Hparts, list_elem_of_further, list_elem_of_here.
  - destruct (int p0); simpl; [|done]. destruct (int p1); simpl; [|done].
    by destruct (int p2).
Qed.

Lemma unpack_position_nonneg_witness :
  unpack_position " 007 -1_0" = Ok (7, 10)
  ∧ length (split "-" " 007 -1_0") = 2%nat ∧ 0 ≤ 7 ∧ 0 ≤ 10.
Proof.
  split; [reflexivity|].
  apply (unpack_position_nonneg " 007 -1_0" 7 10). reflexivity.
Defined.

(** ** Writing and reading, in general *)






(** ** When a submission succeeds, how it fails, what it leaves alone *)






Lemma get_goods_data_same_sheet (wb wb' : workbook) :
  wb' !! GOODS_SHEET_NAME = wb !! GOODS_SHEET_NAME →
  get_goods_data (Some wb') = get_goods_data (Some wb).
Proof. intros Hs. unfold get_goods_data, getitem. simpl. by rewrite Hs. Qed.

Lemma get_rowdown_data_same_sheet (wb wb' : workbook) :
  wb' !! SALE_ROWDOWN_NAME = wb !! SALE_ROWDOWN_NAME →
  get_rowdown_data (Some wb') = get_rowdown_data (Some wb).
Proof. intros Hs. unfold get_rowdown_data. simpl. by rewrite Hs. Qed.

Lemma get_customers_same_sheet (args : gmap string string) (wb wb' : workbook) :
  wb' !! CUSTOMER_SHEET_NAME = wb !! CUSTOMER_SHEET_NAME →
  get_customers args (Some wb') = get_customers args (Some wb).
Proof. intros Hs. unfold get_customers, getitem. simpl. by rewrite Hs. Qed.

(** X5.  What a successful [submit_data] leaves alone: every sheet other
    than the ledger and the map, and in the map every cell other than
    the one written.  The answers of [get_goods_data],
    [get_rowdown_data] and [get_customers] and the dropdown options of
    [get_data] are therefore the same after it as before. *)
Theorem submit_data_frame (form_data : gmap string string) (timestamp : value)
    (wb : workbook) (f' : file) :
  submit_data form_data timestamp (Some wb) = (Ok (), f') →
  ∃ (wb' : workbook) (map_sheet map_sheet' : worksheet) (col row : Z),
    f' = Some wb'
    ∧ (∀ name, name ≠ DATA_SHEET_NAME → name ≠ MAP_SHEET_NAME →
         wb' !! name = wb !! name)
    ∧ wb !! MAP_SHEET_NAME = Some map_sheet
    ∧ wb' !! MAP_SHEET_NAME = Some map_sheet'
    ∧ position_of form_data = Ok (col, row)
    ∧ map_sheet' !! (row, col) = Some (VStr (new_cell_value_of form_data))
    ∧ (∀ r c, (r, c) ≠ (row, col) → map_sheet' !! (r, c) = map_sheet !! (r, c))
    ∧ get_goods_data f' = get_goods_data (Some wb)
    ∧ get_rowdown_data f' = get_rowdown_data (Some wb)
    ∧ (∀ args, get_customers args f' = get_customers args (Some wb))
    ∧ (∀ response response',
         get_data (Some wb) = Ok response → get_data f' = Ok response' →
         dropdownOptions response' = dropdownOptions response).
Proof.
  intros (wb0 & data_sheet & map_sheet & col & row & [= <-] & Hd & Hm & Hp & Hrc
          & ->)%submit_data_ok_inv.
  set (wb' := <[MAP_SHEET_NAME := _]> _).
  assert (∀ name, name ≠ DATA_SHEET_NAME → name ≠ MAP_SHEET_NAME →
            wb' !! name = wb !! name) as Hother.
  { intros name H1 H2. unfold wb'. by rewrite !lookup_insert_ne. }
  exists wb', map_sheet,
    (<[(row, col) := VStr (new_cell_value_of form_data)]> map_sheet), col, row.
  split_and!; try done.
  - apply lookup_insert_eq.
  - apply lookup_insert_eq.
  - intros r c Hne. by rewrite lookup_insert_ne.
  - by apply get_goods_data_same_sheet, Hother.
  - by apply get_rowdown_data_same_sheet, Hother.
  - intros args. by apply get_customers_same_sheet, Hother.
  - intros response response'. unfold get_data, getitem. simpl.
    rewrite (Hother OPTIONS_SHEET_NAME) by done.
    destruct (wb !! OPTIONS_SHEET_NAME) as [options_sheet|]; simpl; [|done].
    destruct (wb !! MAP_SHEET_NAME); simpl; [|done].
    destruct (wb' !! MAP_SHEET_NAME); simpl; [|done].
    by intros [= <-] [= <-].
Qed.

Lemma submit_data_frame_witness :
  ∃ f',
    submit_data (sample_form "3-5") (VDate "2024-01-02 09:30:00")
      (Some sample_workbook) = (Ok (), f')
    ∧ get_goods_data f' = get_goods_data (Some sample_workbook)
    ∧ get_rowdown_data f' = get_rowdown_data (Some sample_workbook).
Proof.
  pose proof (submit_data_at (sample_form "3-5") (VDate "2024-01-02 09:30:00")
                sample_workbook sample_data_sheet sample_map_sheet 3 5
                eq_refl eq_refl eq_refl eq_refl eq_refl) as Hsubmit.
  destruct (submit_data_frame _ _ _ _ Hsubmit)
    as (wb' & m & m' & col & row & _ & _ & _ & _ & _ & _ & _ & Hg & Hr & _).
  eexists. split; [exact Hsubmit|]. split; [exact Hg|exact Hr].
Defined.

(** ** The grid grows with the writes *)

Lemma max_row_insert (ws : worksheet) (row col : Z) (v : value) :
  1 ≤ row → max_row (<[(row, col) := v]> ws) = Z.max (max_row ws) row.
Proof.
  intros Hrow. set (ws' := <[(row, col) := v]> ws).
  assert (ws' !! (row, col) = Some v) as Hl by apply lookup_insert_eq.
  assert (ws' ≠ ∅) as Hne.
  { intros Hempty. by rewrite Hempty, lookup_empty in Hl. }
  apply Z.le_antisymm.
  - apply max_row_le; [done|]. intros r c w.
    unfold ws'. rewrite lookup_insert_Some.
    intros [([= <- <-] & _)|(_ & Hw)]; [lia|].
    pose proof (max_row_ge _ _ _ _ Hw). lia.
  - apply Z.max_lub; [|by apply (max_row_ge _ _ col v)].
    destruct (decide (ws = ∅)) as [->|Hws].
    + transitivity row; [done|]. by apply (max_row_ge _ _ col v).
    + apply max_row_le; [done|]. intros r c w Hw.
      destruct (decide ((row, col) = (r, c))) as [[= <- <-]|Hk].
      * by apply (max_row_ge _ _ col v).
      * apply (max_row_ge _ _ c w). unfold ws'. by rewrite lookup_insert_ne.
Qed.

Lemma max_column_le (ws : worksheet) (b : Z) :
  ws ≠ ∅ → (∀ r c v, ws !! (r, c) = Some v → c ≤ b) → max_column ws ≤ b.
Proof.
  intros Hne Hb. apply maximum_le.
  - intros Hnil%fmap_nil_inv. by apply Hne, map_to_list_empty_iff.
  - intros c ([[r' c'] v] & -> & Hin%elem_of_map_to_list)%list_elem_of_fmap.
    by apply (Hb r' c' v).
Qed.

Lemma max_column_insert (ws : worksheet) (row col : Z) (v : value) :
  1 ≤ col → max_column (<[(row, col) := v]> ws) = Z.max (max_column ws) col.
Proof.
  intros Hcol. set (ws' := <[(row, col) := v]> ws).
  assert (ws' !! (row, col) = Some v) as Hl by apply lookup_insert_eq.
  assert (ws' ≠ ∅) as Hne.
  { intros Hempty. by rewrite Hempty, lookup_empty in Hl. }
  apply Z.le_antisymm.
  - apply max_column_le; [done|]. intros r c w.
    unfold ws'. rewrite lookup_insert_Some.
    intros [([= <- <-] & _)|(_ & Hw)]; [lia|].
    pose proof (max_column_ge _ _ _ _ Hw). lia.
  - apply Z.max_lub; [|by apply (max_column_ge _ row _ v)].
    destruct (decide (ws = ∅)) as [->|Hws].
    + transitivity col; [done|]. by apply (max_column_ge _ row _ v).
    + apply max_column_le; [done|]. intros r c w Hw.
      destruct (decide ((row, col) = (r, c))) as [[= <- <-]|Hk].
      * by apply (max_column_ge _ row _ v).
      * apply (max_column_ge _ r _ w). unfold ws'. by rewrite lookup_insert_ne.
Qed.

(** X6.  A write outside the used extent enlarges the grid: after a
    successful [submit_data] at column [col], row [row], on a map sheet
    of [M] rows and [N] columns, [get_data] returns
    [max M row * max N col] entries, the cells in between included. *)
Theorem grid_grows (form_data : gmap string string) (timestamp : value)
    (wb : workbook) (options_sheet map_sheet : worksheet) (col row : Z)
    (f' : file) :
  wb !! OPTIONS_SHEET_NAME = Some options_sheet →
  wb !! MAP_SHEET_NAME = Some map_sheet →
  position_of form_data = Ok (col, row) →
  submit_data form_data timestamp (Some wb) = (Ok (), f') →
  ∃ response,
    get_data f' = Ok response
    ∧ length (binMapData response)
      = (Z.to_nat (Z.max (max_row map_sheet) row)
         * Z.to_nat (Z.max (max_column map_sheet) col))%nat.
Proof.
  intros Ho Hm Hp
    (wb0 & data_sheet & map_sheet0 & col0 & row0 & [= <-] & Hd & Hm0 & Hp0 & Hrc
     & ->)%submit_data_ok_inv.
  rewrite Hm in Hm0. rewrite Hp in Hp0.
  injection Hm0 as <-. injection Hp0 as <- <-.
  apply orb_false_elim in Hrc as [Hr Hc].
  eexists. split.
  { apply (get_data_sheets _ options_sheet
             (<[(row, col) := VStr (new_cell_value_of form_data)]> map_sheet)).
    - by rewrite !lookup_insert_ne.
    - by rewrite lookup_insert_eq. }
  simpl. rewrite bin_map_data_length.
  by rewrite max_row_insert, max_column_insert by lia.
Qed.

Lemma grid_grows_witness :
  ∃ f' response,
    submit_data (sample_form "3-5") (VDate "2024-01-02 09:30:00")
      (Some sample_workbook) = (Ok (), f')
    ∧ get_data f' = Ok response
    ∧ length (binMapData response) = 15%nat.
Proof.
  pose proof (submit_data_at (sample_form "3-5") (VDate "2024-01-02 09:30:00")
                sample_workbook sample_data_sheet sample_map_sheet 3 5
                eq_refl eq_refl eq_refl eq_refl eq_refl) as Hsubmit.
  destruct (grid_grows (sample_form "3-5") (VDate "2024-01-02 09:30:00")
              sample_workbook sample_options_sheet sample_map_sheet 3 5 _
              eq_refl eq_refl eq_refl Hsubmit) as (response & Hget & Hlen).
  eexists _, response. split; [exact Hsubmit|]. split; [exact Hget|exact Hlen].
Defined.

(** ** Reading a cell text *)

Lemma append_assoc (s t u : string) : (s +:+ t) +:+ u = s +:+ (t +:+ u).
Proof.
  induction s as [|c s IH]; [done|]. by rewrite !append_cons, IH.
Qed.

Lemma split_join_lines (lines : list string) :
  lines ≠ [] → Forall (λ l, contains newline l = false) lines →
  split newline (join_lines lines) = lines.
Proof.
  induction lines as [|l lines IH]; [done|]. intros _ Hall.
  apply Forall_cons in Hall as [Hl Hall].
  destruct lines as [|l' lines]; simpl.
  - by apply split_single.
  - rewrite split_append by done. f_equal. by apply IH.
Qed.

Lemma line_or_empty_lookup (lines : list string) (i : nat) :
  line_or_empty lines i = default "" (lines !! i).
Proof.
  unfold line_or_empty. destruct (i <? length lines)%nat eqn:Hi; [done|].
  apply Nat.ltb_ge in Hi. by rewrite lookup_ge_None_2.
Qed.

Lemma bin_entry_join_lines (position_name : string) (lines : list string) :
  Forall (λ l, contains newline l = false) lines →
  nonempty (join_lines lines) = true →
  let entry := bin_entry position_name (VStr (join_lines lines)) in
  entry !! "binName" = Some (default "" (lines !! 0%nat))
  ∧ entry !! "item" = Some (default "" (lines !! 1%nat))
  ∧ entry !! "date" = Some (default "" (lines !! 2%nat))
  ∧ entry !! "vendor" = Some (default "" (lines !! 3%nat))
  ∧ entry !! "binValue" = Some (join_lines lines).
Proof.
  intros Hall Hne. unfold bin_entry. simpl truthy. simpl is_str. simpl str.
  rewrite Hne. simpl andb. cbv iota.
  rewrite split_join_lines; [|by intros ->|done].
  rewrite !line_or_empty_lookup. by split_and!.
Qed.

(** X7.  How [get_data] reads a text cell of any number of lines: the
    first four lines are the bin name, item, date and vendor; a field
    whose line is missing is empty, and lines after the fourth are
    ignored (they remain visible in [binValue] only). *)
Theorem bin_entry_lines (position_name : string) (lines : list string) :
  Forall (λ l, contains newline l = false) lines →
  nonempty (join_lines lines) = true →
  let entry := bin_entry position_name (VStr (join_lines lines)) in
  entry !! "binName" = Some (default "" (lines !! 0%nat))
  ∧ entry !! "item" = Some (default "" (lines !! 1%nat))
  ∧ entry !! "date" = Some (default "" (lines !! 2%nat))
  ∧ entry !! "vendor" = Some (default "" (lines !! 3%nat))
  ∧ entry !! "binValue" = Some (join_lines lines).
Proof. apply bin_entry_join_lines. Qed.

Lemma bin_entry_lines_witness :
  let entry := bin_entry "1-1" (VStr (join_lines ["B7"; "rice"])) in
  entry !! "binName" = Some "B7"
  ∧ entry !! "item" = Some "rice"
  ∧ entry !! "date" = Some ""
  ∧ entry !! "vendor" = Some ""
  ∧ entry !! "binValue" = Some (join_lines ["B7"; "rice"]).
Proof.
  apply (bin_entry_lines "1-1" ["B7"; "rice"]); [|reflexivity].
  repeat constructor.
Defined.

Lemma encode_cell_join (a b c d : string) :
  encode_cell (VStr a) (VStr b) (VStr c) (VStr d) = join_lines [a; b; c; d].
Proof. done. Qed.

(** X8.  Nothing escapes a line break in a submitted field.  When the bin
    name itself holds one line break, the cell text has five lines and
    [get_data] reads the fields shifted by one: the bin name is cut at
    the break, its remainder appears as the item, the item as the date,
    the date as the vendor, and the submitted vendor is in no field. *)
Theorem line_break_shifts_fields (position_name a1 a2 item date vendor : string) :
  contains newline a1 = false → contains newline a2 = false →
  contains newline item = false → contains newline date = false →
  contains newline vendor = false →
  let entry :=
    bin_entry position_name
      (VStr (encode_cell (VStr (a1 +:+ String newline a2)) (VStr item)
               (VStr date) (VStr vendor))) in
  entry !! "binName" = Some a1
  ∧ entry !! "item" = Some a2
  ∧ entry !! "date" = Some item
  ∧ entry !! "vendor" = Some date.
Proof.
  intros H1 H2 H3 H4 H5.
  assert (encode_cell (VStr (a1 +:+ String newline a2)) (VStr item)
            (VStr date) (VStr vendor)
          = join_lines [a1; a2; item; date; vendor]) as ->.
  { unfold encode_cell. simpl. by rewrite append_assoc. }
  destruct (bin_entry_join_lines position_name [a1; a2; item; date; vendor])
    as (Ha & Hb & Hc & Hd & _).
  - by repeat constructor.
  - simpl. by destruct a1.
  - done.
Qed.

Lemma line_break_shifts_fields_witness :
  let entry :=
    bin_entry "3-5"
      (VStr (encode_cell (VStr ("B" +:+ String newline "1")) (VStr "rice")
               (VStr "2024-01-02") (VStr "V"))) in
  entry !! "binName" = Some "B"
  ∧ entry !! "item" = Some "1"
  ∧ entry !! "date" = Some "rice"
  ∧ entry !! "vendor" = Some "2024-01-02".
Proof.
  apply (line_break_shifts_fields "3-5" "B" "1" "rice" "2024-01-02" "V");
    reflexivity.
Defined.

(** ** The read handlers: when they answer, and on empty sheets *)



Lemma get_data_empty (wb : workbook) :
  wb !! OPTIONS_SHEET_NAME = Some ∅ → wb !! MAP_SHEET_NAME = Some ∅ →
  get_data (Some wb)
  = Ok {| dropdownOptions := [];
          binMapData := [ <["positionName" := "1-1"]>
                            (<["binName" := ""]> (<["binValue" := ""]> ∅)) ] |}.
Proof. intros Ho Hm. by rewrite (get_data_sheets _ ∅ ∅). Qed.

Lemma get_goods_data_empty (wb : workbook) :
  wb !! GOODS_SHEET_NAME = Some ∅ → get_goods_data (Some wb) = Ok [].
Proof. intros Hs. unfold get_goods_data, getitem. simpl. by rewrite Hs. Qed.

Lemma get_rowdown_data_empty (wb : workbook) :
  wb !! SALE_ROWDOWN_NAME = Some ∅ → get_rowdown_data (Some wb) = Ok ∅.
Proof. intros Hs. unfold get_rowdown_data. simpl. by rewrite Hs. Qed.

Lemma get_customers_empty (args : gmap string string) (wb : workbook) :
  wb !! CUSTOMER_SHEET_NAME = Some ∅ → get_customers args (Some wb) = Ok [].
Proof.
  intros Hs. unfold get_customers, getitem. simpl. rewrite Hs.
  by destruct (negb _).
Qed.

(** X10.  Sheets without any cell.  [get_data] still returns one entry,
    the empty bin ["1-1"] (an empty sheet counts as one row by one
    column), and no dropdown option; [get_goods_data] returns no goods,
    [get_rowdown_data] an empty mapping, and [get_customers] no customer
    for any query. *)
Theorem empty_sheet_answers (wb : workbook) (args : gmap string string) :
  (wb !! OPTIONS_SHEET_NAME = Some ∅ → wb !! MAP_SHEET_NAME = Some ∅ →
     get_data (Some wb)
     = Ok {| dropdownOptions := [];
             binMapData := [ <["positionName" := "1-1"]>
                               (<["binName" := ""]>
                                 (<["binValue" := ""]> ∅)) ] |})
  ∧ (wb !! GOODS_SHEET_NAME = Some ∅ → get_goods_data (Some wb) = Ok [])
  ∧ (wb !! SALE_ROWDOWN_NAME = Some ∅ → get_rowdown_data (Some wb) = Ok ∅)
  ∧ (wb !! CUSTOMER_SHEET_NAME = Some ∅ → get_customers args (Some wb) = Ok []).
Proof.
  split_and!.
  - apply get_data_empty.
  - apply get_goods_data_empty.
  - apply get_rowdown_data_empty.
  - apply get_customers_empty.
Qed.

Lemma empty_sheet_answers_witness :
  get_goods_data (Some (<[GOODS_SHEET_NAME := ∅]> sample_workbook)) = Ok []
  ∧ get_customers {["name_query" := "a"]}
      (Some (<[CUSTOMER_SHEET_NAME := ∅]> sample_workbook)) = Ok [].
Proof.
  split.
  - apply (empty_sheet_answers (<[GOODS_SHEET_NAME := ∅]> sample_workbook) ∅).
    reflexivity.
  - apply (empty_sheet_answers (<[CUSTOMER_SHEET_NAME := ∅]> sample_workbook)
             {["name_query" := "a"]}).
    reflexivity.
Defined.

(** ** Creating the file *)




(** ** Sales lookups *)

Lemma json_key_in_vocabulary (h key : string) :
  HEADER_TO_JSON_KEY !! h = Some key → key ∈ lookup_keys.
Proof.
  intros Hk%elem_of_list_to_map_2. unfold lookup_keys.
  repeat (apply elem_of_cons in Hk as [[= _ <-]|Hk];
          [repeat first [apply list_elem_of_here|apply list_elem_of_further]|]).
  by apply elem_of_nil in Hk.
Qed.

(** X12.  [get_rowdown_data] answers with keys from its fixed vocabulary
    only: a column whose header is not one of the five known labels, or
    is not text, never shows in [lookupData].  When the workbook has no
    sales sheet the handler answers with its own error, naming the
    sheet. *)
Theorem get_rowdown_data_vocabulary (f : file) :
  (∀ lookup key, get_rowdown_data f = Ok lookup →
     is_Some (lookup !! key) → key ∈ lookup_keys)
  ∧ (∀ wb : workbook, f = Some wb → wb !! SALE_ROWDOWN_NAME = None →
       get_rowdown_data f = Err (SheetNotFound SALE_ROWDOWN_NAME)).
Proof.
  split.
  - intros lookup key. destruct f as [wb|]; [|done].
    unfold get_rowdown_data. simpl.
    destruct (wb !! SALE_ROWDOWN_NAME) as [sheet|]; [|done].
    intros [= <-] [options Hk].
    destruct (values sheet) as [|header rows].
    + simpl in Hk. by rewrite lookup_empty in Hk.
    + destruct (lookup_data_of_spec header rows) as [H1 _].
      destruct (H1 key options Hk) as (col & h & _ & Hh & _).
      by apply (json_key_in_vocabulary h).
  - intros wb -> Hs. unfold get_rowdown_data. simpl. by rewrite Hs.
Qed.

Lemma get_rowdown_data_vocabulary_witness :
  get_rowdown_data (Some (delete SALE_ROWDOWN_NAME sample_workbook))
  = Err (SheetNotFound SALE_ROWDOWN_NAME).
Proof.
  apply (proj2 (get_rowdown_data_vocabulary
                  (Some (delete SALE_ROWDOWN_NAME sample_workbook)))
           (delete SALE_ROWDOWN_NAME sample_workbook));
    reflexivity.
Defined.

(** ** Trimmed values *)

Lemma rstrip_rstrip s : rstrip (rstrip s) = rstrip s.
Proof.
  induction s as [|c s IH]; simpl; [done|].
  destruct (rstrip s) as [|c' t] eqn:Hr.
  - destruct (is_space c) eqn:Hc; simpl; [done|]. by rewrite Hc.
  - simpl. simpl in IH. by rewrite IH.
Qed.

Lemma lstrip_head s :
  lstrip s = "" ∨ ∃ c t, lstrip s = String c t ∧ is_space c = false.
Proof.
  induction s as [|c s IH]; simpl; [by left|].
  destruct (is_space c) eqn:Hc; [done|]. right. by exists c, s.
Qed.

Lemma rstrip_head c t :
  is_space c = false → ∃ t', rstrip (String c t) = String c t'.
Proof.
  intros Hc. simpl. destruct (rstrip t); rewrite ?Hc; by eexists.
Qed.

Lemma strip_strip s : strip (strip s) = strip s.
Proof.
  unfold strip.
  destruct (lstrip_head s) as [->|(c & t & -> & Hc)]; [done|].
  destruct (rstrip_head c t Hc) as [t' Ht]. rewrite Ht.
  simpl lstrip. rewrite Hc. rewrite <- Ht. apply rstrip_rstrip.
Qed.

(** X13.  Every value in an extracted option list is the stripped text
    of a cell of its column that is not [None]; it is not empty and it
    has no whitespace left at either end. *)
Theorem lookup_values_trimmed (col_index : nat) (rows : list (list value))
    (x : string) :
  x ∈ column_options col_index rows →
  strip x = x ∧ x ≠ ""
  ∧ ∃ row v, row ∈ rows ∧ row !! col_index = Some v
             ∧ is_none v = false ∧ x = strip (str v).
Proof.
  intros Hx.
  destruct (options_loop_invariant col_index rows) as (_ & _ & Hl).
  apply Hl in Hx as [Hx Hne]. unfold column_texts in Hx.
  apply list_elem_of_omap in Hx as (row & Hrow & Hv).
  destruct (row !! col_index) as [v|] eqn:Hcell; simpl in Hv; [|done].
  destruct (is_none v) eqn:Hnone; [done|]. injection Hv as <-.
  split; [apply strip_strip|]. split; [done|]. by exists row, v.
Qed.

Lemma lookup_values_trimmed_witness :
  strip "b" = "b" ∧ "b" ≠ ""
  ∧ ∃ row v, row ∈ [[VStr " b "]; [VNone]; [VStr "b"]]
             ∧ row !! 0%nat = Some v ∧ is_none v = false ∧ "b" = strip (str v).
Proof.
  apply (lookup_values_trimmed 0 [[VStr " b "]; [VNone]; [VStr "b"]] "b").
  vm_compute. apply list_elem_of_here.
Defined.

(** ** More on the customer search *)

Lemma filter_sublist_impl {A} (P Q : A → Prop)
    `{!∀ x, Decision (P x)} `{!∀ x, Decision (Q x)} (l : list A) :
  (∀ x, P x → Q x) → filter P l `sublist_of` filter Q l.
Proof.
  intros HPQ. induction l as [|x l IH]; [done|].
  rewrite !filter_cons.
  destruct (decide (P x)) as [HP|HP].
  - rewrite decide_True by auto. by apply sublist_skip.
  - destruct (decide (Q x)); [by apply sublist_cons|done].
Qed.

Lemma prefix_match_widen (q q' v : string) :
  q = "" ∨ q = q' → prefix_match q v → prefix_match q' v.
Proof. by intros [-> | ->]. Qed.

(** X14.  The queries widen the search, they do not narrow it: a row is
    wanted as soon as one query matches.  If a second request differs
    from a first one only in queries that were empty in the first, then
    every customer of the first answer is in the second answer, in the
    same order. *)
Theorem get_customers_widening (args args' : gmap string string)
    (wb : workbook) (customer_sheet : worksheet) :
  wb !! CUSTOMER_SHEET_NAME = Some customer_sheet →
  (∀ key, key ∈ ["id_query"; "name_query"; "phone_query"; "address_query"] →
          query_arg args key = "" ∨ query_arg args key = query_arg args' key) →
  ∃ customers customers',
    get_customers args (Some wb) = Ok customers
    ∧ get_customers args' (Some wb) = Ok customers'
    ∧ customers `sublist_of` customers'.
Proof.
  intros Hsheet Hq. eexists _, _.
  split; [by apply get_customers_sheet|].
  split; [by apply get_customers_sheet|].
  apply fmap_sublist, filter_sublist_impl. intros info.
  assert (∀ key v, key ∈ ["id_query"; "name_query"; "phone_query"; "address_query"] →
            prefix_match (query_arg args key) v →
            prefix_match (query_arg args' key) v) as Hw.
  { intros key v Hkey. apply prefix_match_widen. by apply Hq. }
  intros H.
  repeat (apply orb_prop_elim in H as [H|H]).
  - apply (Hw "id_query") in H; [|repeat constructor].
    apply orb_prop_intro. left. apply orb_prop_intro. left.
    apply orb_prop_intro. by left.
  - apply (Hw "name_query") in H; [|repeat constructor].
    apply orb_prop_intro. left. apply orb_prop_intro. left.
    apply orb_prop_intro. by right.
  - apply (Hw "phone_query") in H; [|repeat constructor].
    apply orb_prop_intro. left. apply orb_prop_intro. by right.
  - apply (Hw "address_query") in H; [|repeat constructor].
    apply orb_prop_intro. by right.
Qed.

Lemma get_customers_widening_witness :
  ∃ customers customers',
    get_customers {["name_query" := "acme"]} (Some sample_workbook)
    = Ok customers
    ∧ get_customers {["name_query" := "acme"; "phone_query" := "7"]}
        (Some sample_workbook) = Ok customers'
    ∧ customers `sublist_of` customers'.
Proof.
  apply (get_customers_widening {["name_query" := "acme"]}
           {["name_query" := "acme"; "phone_query" := "7"]}
           sample_workbook sample_customer_sheet eq_refl).
  intros key Hkey.
  repeat (apply elem_of_cons in Hkey as [->|Hkey];
          [vm_compute; tauto|]).
  by apply elem_of_nil in Hkey.
Defined.

Lemma customer_info_of_absent (headers row_data : list string) (key : string) :
  key ∉ headers → customer_info_of headers row_data !! key = None.
Proof.
  unfold customer_info_of.
  induction headers as [|h headers IH] using rev_ind; [done|].
  intros Hkey. rewrite enumerate_snoc, foldl_snoc. simpl.
  rewrite lookup_insert_ne.
  - apply IH. intros Hin. apply Hkey, elem_of_app. by left.
  - intros ->. apply Hkey, elem_of_app. right. apply list_elem_of_here.
Qed.

(** X15.  A column that the customer sheet does not have is not an
    error: the field is empty in every customer returned, and a query
    on it matches nothing.  Shown for the identifier column: without
    the header [客戶編號] every returned customer has an empty [id], and
    a request with only an [id_query] returns no one. *)
Theorem get_customers_missing_header (args : gmap string string)
    (wb : workbook) (customer_sheet : worksheet) :
  wb !! CUSTOMER_SHEET_NAME = Some customer_sheet →
  "客戶編號" ∉ (str <$> row_values customer_sheet 1) →
  ∃ customers,
    get_customers args (Some wb) = Ok customers
    ∧ (∀ c, c ∈ customers → c_id c = "")
    ∧ (query_arg args "name_query" = "" → query_arg args "phone_query" = "" →
       query_arg args "address_query" = "" → customers = []).
Proof.
  intros Hsheet Hmissing. eexists.
  split; [by apply get_customers_sheet|].
  assert (∀ info,
            info ∈ customer_infos (str <$> row_values customer_sheet 1)
                     (iter_rows customer_sheet 2) →
            get_or_empty info "客戶編號" = "") as Hid.
  { intros info (row & -> & _)%list_elem_of_fmap.
    unfold get_or_empty. by rewrite customer_info_of_absent. }
  split.
  - intros c (info & -> & [_ Hin]%list_elem_of_filter)%list_elem_of_fmap.
    simpl. by apply Hid.
  - intros H2 H3 H4. rewrite H2, H3, H4.
    destruct (filter _ _) as [|info rest] eqn:Hf; [done|].
    assert (info ∈ filter
              (λ info, prefix_match (query_arg args "id_query")
                         (get_or_empty info "客戶編號")
                       || prefix_match "" (get_or_empty info "客戶名稱")
                       || prefix_match "" (get_or_empty info "客戶電話")
                       || prefix_match "" (get_or_empty info "送貨地址"))
              (customer_infos (str <$> row_values customer_sheet 1)
                 (iter_rows customer_sheet 2))) as Hin.
    { rewrite Hf. apply list_elem_of_here. }
    apply list_elem_of_filter in Hin as [Hm Hin].
    rewrite (Hid info Hin) in Hm. unfold prefix_match in Hm.
    by destruct (query_arg args "id_query").
Qed.

Lemma get_customers_missing_header_witness :
  ∃ customers,
    get_customers {["name_query" := "acme"]}
      (Some (<[CUSTOMER_SHEET_NAME := sample_nameless_sheet]> sample_workbook))
    = Ok customers
    ∧ ∀ c, c ∈ customers → c_id c = "".
Proof.
  destruct (get_customers_missing_header {["name_query" := "acme"]}
              (<[CUSTOMER_SHEET_NAME := sample_nameless_sheet]> sample_workbook)
              sample_nameless_sheet (lookup_insert_eq _ _ _))
    as (customers & Hget & Hid & _).
  - vm_compute. intros Hin. apply list_elem_of_singleton in Hin. discriminate.
  - exists customers. split; [exact Hget|exact Hid].
Defined.

(** ** When the goods scan goes through *)

Lemma length_row_values (ws : worksheet) (row : Z) :
  length (row_values ws row) = Z.to_nat (max_column ws).
Proof. unfold row_values. by rewrite length_fmap, length_seqZ. Qed.

Lemma length_iter_rows_row (ws : worksheet) (min_row : Z) (row : list value) :
  row ∈ iter_rows ws min_row → length row = Z.to_nat (max_column ws).
Proof.
  intros (r & -> & _)%list_elem_of_fmap. apply length_row_values.
Qed.

Lemma filter_all {A} (P : A → Prop) `{!∀ x, Decision (P x)} (l : list A) :
  Forall P l → filter P l = l.
Proof.
  induction 1 as [|x l Hx Hl IH]; [done|].
  by rewrite filter_cons, decide_True, IH.
Qed.

Lemma length_goods_headers (header_row : list value) :
  (Forall (λ v, truthy v) header_row →
     length (goods_headers header_row) = length header_row)
  ∧ (¬ Forall (λ v, truthy v) header_row →
     (length (goods_headers header_row) < length header_row)%nat).
Proof.
  unfold goods_headers. rewrite length_fmap. split.
  - intros Hall. by rewrite filter_all.
  - intros (v & Hv & Hfalse)%not_Forall_Exists%Exists_exists; [|apply _].
    by apply (length_filter_lt _ _ v).
Qed.

(** The scan of the data rows either goes through, with one item per
    row, or stops with [IndexError] at the first row that is longer than
    the headers. *)
Lemma scan_goods_cases (headers : list string) (rows : list (list value)) :
  if decide (Forall (λ row, length row ≤ length headers)%nat rows)
  then ∃ items, scan_goods headers rows = Ok items
                ∧ length items = length rows
  else scan_goods headers rows = Err IndexError.
Proof.
  unfold scan_goods.
  induction rows as [|row rows IH] using rev_ind.
  - rewrite decide_True by constructor. by exists [].
  - rewrite foldl_snoc.
    pose proof (row_dict_of_cases headers row) as Hrow.
    destruct (decide (Forall (λ row, length row ≤ length headers)%nat rows))
      as [Hall|Hnot].
    + destruct IH as (items & -> & Hlen). simpl.
      destruct (decide (length row ≤ length headers)%nat) as [Hle|Hgt].
      * rewrite decide_True
          by (apply Forall_app; split; [done|by constructor]).
        destruct (row_dict_of headers row) as [row_dict|e]; [|done]. simpl.
        eexists. split; [done|]. rewrite !length_app, Hlen. done.
      * rewrite decide_False.
        2: { intros Hf. apply Forall_app in Hf as [_ Hr].
             apply Forall_cons in Hr as [Hr _]. lia. }
        by rewrite Hrow.
    + rewrite decide_False.
      2: { intros [Hr _]%Forall_app. by apply Hnot. }
      by rewrite IH.
Qed.

(** X16.  When [get_goods_data] goes through and when it does not, on a
    readable file with the goods sheet.  If every cell of the header row
    over the used columns is true, or if there is no data row, it
    answers with one item per data row, blank rows included.  Otherwise
    - a header cell that is empty, zero or false, with at least one data
    row below - it fails with [IndexError] and returns no goods at
    all. *)
Theorem get_goods_data_outcome (wb : workbook) (goods_sheet : worksheet) :
  wb !! GOODS_SHEET_NAME = Some goods_sheet →
  let header_row := row_values goods_sheet 1 in
  let rows := iter_rows goods_sheet 2 in
  (Forall (λ v, truthy v) header_row ∨ rows = [] →
     ∃ items, get_goods_data (Some wb) = Ok items
              ∧ length items = length rows
              ∧ length rows = Z.to_nat (max_row goods_sheet - 1))
  ∧ (¬ Forall (λ v, truthy v) header_row → rows ≠ [] →
     get_goods_data (Some wb) = Err IndexError).
Proof.
  intros Hsheet header_row rows.
  assert (get_goods_data (Some wb)
          = scan_goods (goods_headers header_row) rows) as ->.
  { unfold get_goods_data, getitem. simpl. by rewrite Hsheet. }
  assert (length rows = Z.to_nat (max_row goods_sheet - 1)) as Hrows.
  { unfold rows, iter_rows. rewrite length_fmap, length_seqZ. f_equal. lia. }
  assert (∀ row, row ∈ rows → length row = length header_row) as Hwidth.
  { intros row Hrow. unfold header_row.
    by rewrite length_row_values, (length_iter_rows_row _ _ _ Hrow). }
  destruct (length_goods_headers header_row) as [Hfull Hgap].
  pose proof (scan_goods_cases (goods_headers header_row) rows) as Hscan.
  split.
  - intros Hok. rewrite decide_True in Hscan.
    + destruct Hscan as (items & -> & Hlen). by exists items.
    + destruct Hok as [Hall| ->]; [|constructor].
      apply Forall_forall. intros row Hrow.
      rewrite (Hwidth row Hrow), Hfull by done. done.
  - intros Hnot Hne. rewrite decide_False in Hscan; [done|].
    intros Hall. destruct rows as [|row rest] eqn:Hr; [done|].
    apply Forall_cons in Hall as [Hrow _].
    specialize (Hgap Hnot).
    rewrite (Hwidth row) in Hrow by apply list_elem_of_here. lia.
Qed.

Lemma get_goods_data_outcome_witness :
  (∃ items, get_goods_data (Some sample_workbook) = Ok items
            ∧ length items = 1%nat)
  ∧ get_goods_data (Some sample_gap_workbook) = Err IndexError.
Proof.
  split.
  - destruct (proj1 (get_goods_data_outcome sample_workbook sample_goods_sheet
                       eq_refl)) as (items & Hget & Hlen & _).
    + left. vm_compute. repeat constructor.
    + exists items. split; [exact Hget|exact Hlen].
  - apply (proj2 (get_goods_data_outcome sample_gap_workbook
                    sample_gap_goods_sheet (lookup_insert_eq _ _ _))).
    + vm_compute. intros Hall.
      apply Forall_cons in Hall as [_ Hall].
      apply Forall_cons in Hall as [Hfalse _]. exact Hfalse.
    + vm_compute. discriminate.
Defined.

(** ** Position names are keys *)

Lemma bin_map_data_cells (ws : worksheet) :
  bin_map_data_of ws
  = (λ rc, bin_entry (position_name_of rc.2 rc.1) (cell_value ws rc.1 rc.2))
      <$> grid_cells ws.
Proof.
  unfold bin_map_data_of, grid_cells.
  induction (seqZ 1 (max_row ws)) as [|row rows IH]; [done|].
  rewrite !bind_cons, fmap_app, IH. f_equal.
  rewrite !bind_singleton_fmap, <- list_fmap_compose. done.
Qed.

Lemma elem_of_grid_cells (ws : worksheet) (row col : Z) :
  (row, col) ∈ grid_cells ws → 1 ≤ row ∧ 1 ≤ col.
Proof.
  unfold grid_cells.
  intros (r & (c & [= -> ->]%list_elem_of_singleton & Hc%elem_of_seqZ)
                %list_elem_of_bind & Hr%elem_of_seqZ)%list_elem_of_bind.
  lia.
Qed.

Lemma NoDup_grid_cells (ws : worksheet) : NoDup (grid_cells ws).
Proof.
  unfold grid_cells. apply NoDup_bind.
  - intros r1 r2 rc _ _
      (c1 & ->%list_elem_of_singleton & _)%list_elem_of_bind
      (c2 & [= <- _]%list_elem_of_singleton & _)%list_elem_of_bind.
    done.
  - intros row _. rewrite bind_singleton_fmap.
    apply NoDup_fmap_2; [by intros c1 c2 [= ->]|apply NoDup_seqZ].
  - apply NoDup_seqZ.
Qed.

(** X17.  In an answer of [get_data] no two entries have the same
    [positionName]: the name ["col-row"] identifies its cell. *)
Theorem position_names_unique (f : file) (response : data_response) :
  get_data f = Ok response →
  NoDup ((λ entry : gmap string string, entry !! "positionName")
           <$> binMapData response).
Proof.
  destruct f as [wb|]; [|done]. unfold get_data, getitem. simpl.
  destruct (wb !! OPTIONS_SHEET_NAME); simpl; [|done].
  destruct (wb !! MAP_SHEET_NAME) as [map_sheet|]; simpl; [|done].
  intros [= <-]. simpl.
  rewrite bin_map_data_cells, <- list_fmap_compose.
  apply NoDup_fmap_2_strong; [|apply NoDup_grid_cells].
  intros [r1 c1] [r2 c2] [??]%elem_of_grid_cells [??]%elem_of_grid_cells.
  simpl. rewrite !bin_entry_position_name. intros [= Hname].
  apply position_name_of_inj in Hname as [-> ->]; [done|lia..].
Qed.

Lemma position_names_unique_witness :
  ∃ response,
    get_data (Some sample_workbook) = Ok response
    ∧ NoDup ((λ entry : gmap string string, entry !! "positionName")
               <$> binMapData response).
Proof.
  eexists. split.
  - apply (get_data_sheets sample_workbook sample_options_sheet
             sample_map_sheet); reflexivity.
  - apply (position_names_unique (Some sample_workbook)).
    apply (get_data_sheets sample_workbook sample_options_sheet
             sample_map_sheet); reflexivity.
Defined.
